(** * The ledger of system.accountant1: store, projector and routes

    The repository holds two Flask entry points over the same SQLite
    schema: [app.py] (table [entries], one route per form) and
    [system_accountant.py] (table [events], one [/add] route for the three
    forms).  Both are embedded here, each in a module of its own, over a
    common model of the Python and SQLite values they handle:

    - [float] is Rocq's primitive binary64 float, the type of Python's
      [float] and of SQLite's REAL;
    - Python's [int] is [Z]; SQLite's INTEGER is a [Z] of 64 bits;
    - [str] is [string] (ASCII text);
    - a Python exception is the [Raise] branch of [outcome]. *)

From Stdlib Require Import ZArith String Ascii List Bool Floats Lia.
From stdpp Require Import gmap strings list sorting.

Local Open Scope string_scope.
Local Open Scope Z_scope.

(** ** Exceptions *)

Inductive exn := ValueError | OverflowError.

Inductive outcome (A : Type) :=
| Ok (a : A)
| Raise (e : exn).
Arguments Ok {A} a.
Arguments Raise {A} e.

#[global] Instance outcome_ret : MRet outcome := fun A a => Ok a.
#[global] Instance outcome_bind : MBind outcome := fun A B k m =>
  match m with
  | Ok a => k a
  | Raise e => Raise e
  end.

(** ** Python builtins *)

Module Py.

(** Characters removed by [str.strip()]: tab to carriage return, the four
    separators, and space. *)
Definition isspace (c : ascii) : bool :=
  let n := Z.of_nat (nat_of_ascii c) in
  ((9 <=? n) && (n <=? 13)) || ((28 <=? n) && (n <=? 32)).

Fixpoint lstrip (l : list ascii) : list ascii :=
  match l with
  | c :: t => if isspace c then lstrip t else l
  | [] => []
  end.

Definition strip_chars (l : list ascii) : list ascii :=
  rev (lstrip (rev (lstrip l))).

(** [s.strip()] *)
Definition strip (s : string) : string :=
  string_of_list_ascii (strip_chars (list_ascii_of_string s)).

(** Characters skipped around a numeral by [int()] and [float()]: tab to
    carriage return, and space; the four separators are not. *)
Definition is_blank (c : ascii) : bool :=
  let n := Z.of_nat (nat_of_ascii c) in
  ((9 <=? n) && (n <=? 13)) || (n =? 32).

Fixpoint skip_blanks (l : list ascii) : list ascii :=
  match l with
  | c :: t => if is_blank c then skip_blanks t else l
  | [] => []
  end.

Definition trim (l : list ascii) : list ascii :=
  rev (skip_blanks (rev (skip_blanks l))).

(** The most digits [int()] reads from a string before it gives up
    (sys.int_info.default_max_str_digits). *)
Definition max_str_digits : nat := 4300.

Definition digit_of (c : ascii) : option Z :=
  let n := Z.of_nat (nat_of_ascii c) in
  if (48 <=? n) && (n <=? 57) then Some (n - 48) else None.

Definition is_underscore (c : ascii) : bool :=
  Z.of_nat (nat_of_ascii c) =? 95.

(** The digits that continue a run of digits, an underscore being allowed
    only between two digits; the rest of the input comes back with them. *)
Fixpoint more_digits (l : list ascii) : list Z * list ascii :=
  match l with
  | c :: t =>
      match digit_of c with
      | Some d => let '(ds, r) := more_digits t in (d :: ds, r)
      | None =>
          if is_underscore c then
            match t with
            | c' :: t' =>
                match digit_of c' with
                | Some d => let '(ds, r) := more_digits t' in (d :: ds, r)
                | None => ([], l)
                end
            | [] => ([], l)
            end
          else ([], l)
      end
  | [] => ([], [])
  end.

(** digitpart ::= digit (["_"] digit)* *)
Definition digitpart (l : list ascii) : option (list Z * list ascii) :=
  match l with
  | c :: t =>
      match digit_of c with
      | Some d => let '(ds, r) := more_digits t in Some (d :: ds, r)
      | None => None
      end
  | [] => None
  end.

Definition decimal (ds : list Z) : Z :=
  fold_left (fun acc d => 10 * acc + d) ds 0.

(** An optional sign: [true] for minus. *)
Definition sign (l : list ascii) : bool * list ascii :=
  match l with
  | "-"%char :: t => (true, t)
  | "+"%char :: t => (false, t)
  | _ => (false, l)
  end.

(** [int(s)] on a string, base ten: a numeral of more than
    [max_str_digits] digits is a ValueError like one that is malformed. *)
Definition int (s : string) : outcome Z :=
  let '(neg, l) := sign (trim (list_ascii_of_string s)) in
  match digitpart l with
  | Some (ds, []) =>
      if (max_str_digits <? length ds)%nat then Raise ValueError
      else Ok (if neg then - decimal ds else decimal ds)
  | _ => Raise ValueError
  end.

(** Nearest binary64 to an integer, ties to even. *)
Definition float_of_Z (z : Z) : float :=
  SF2Prim (binary_normalize prec emax z 0 false).

(** Nearest binary64 to [n / d], ties to even. *)
Definition float_of_ratio (neg : bool) (n d : positive) : float :=
  SF2Prim (SFdiv prec emax (S754_finite neg n 0) (S754_finite false d 0)).

(** The value of the decimal numeral [m * 10 ^ e]. *)
Definition float_of_decimal (neg : bool) (m e : Z) : float :=
  match m with
  | Zpos p =>
      if 0 <=? e then float_of_Z (if neg then - (m * 10 ^ e) else m * 10 ^ e)
      else float_of_ratio neg p (Z.to_pos (10 ^ (- e)))
  | _ => if neg then neg_zero else zero
  end.

Definition lower (c : ascii) : ascii :=
  let n := nat_of_ascii c in
  if ((65 <=? n) && (n <=? 90))%nat then ascii_of_nat (n + 32) else c.

(** The exponent part of a float numeral, if any: [e] or [E], an optional
    sign, a digitpart. *)
Definition exponent (l : list ascii) : option (Z * list ascii) :=
  match l with
  | c :: t =>
      if Ascii.eqb (lower c) "e" then
        let '(neg, t') := sign t in
        match digitpart t' with
        | Some (ds, r) => Some (if neg then - decimal ds else decimal ds, r)
        | None => None
        end
      else Some (0, l)
  | [] => Some (0, [])
  end.

(** The numeral after the sign: digits, an optional point and digits, an
    optional exponent, with a digit on one side of the point at least. *)
Definition numeral (neg : bool) (l : list ascii) : outcome float :=
  let '(ip, r1) := match digitpart l with
                   | Some (ds, r) => (ds, r)
                   | None => ([], l)
                   end in
  let '(fp, r2) := match r1 with
                   | "."%char :: t =>
                       match digitpart t with
                       | Some (ds, r) => (ds, r)
                       | None => ([], t)
                       end
                   | _ => ([], r1)
                   end in
  match (ip ++ fp)%list with
  | [] => Raise ValueError
  | ds =>
      match exponent r2 with
      | Some (e, []) =>
          Ok (float_of_decimal neg (decimal ds) (e - Z.of_nat (length fp)))
      | _ => Raise ValueError
      end
  end.

(** [float(s)] on a string. *)
Definition float_of_str (s : string) : outcome float :=
  let '(neg, l) := sign (trim (list_ascii_of_string s)) in
  let w := string_of_list_ascii (map lower l) in
  if String.eqb w "inf" || String.eqb w "infinity"
  then Ok (if neg then neg_infinity else infinity)
  else if String.eqb w "nan" then Ok nan
  else numeral neg l.

(** [float(n)] and the conversion of the int operand of [float * int]:
    OverflowError when the int rounds beyond the largest float, that is
    from halfway between it and [2 ^ 1024] on. *)
Definition float_of_int (z : Z) : outcome float :=
  if Z.abs z <? 2 ^ 1024 - 2 ^ 970 then Ok (float_of_Z z)
  else Raise OverflowError.

(** [round(x, 2)]: the exact value of [x] is rounded to two decimals, ties
    to even, and the decimal result read back as the nearest float;
    zeros, infinities and NaN round to themselves. *)
Definition round2 (x : float) : float :=
  match Prim2SF x with
  | S754_finite s m e =>
      let n := Z.pos m * 100 * 2 ^ Z.max e 0 in
      let d := 2 ^ Z.max (- e) 0 in
      let q := n / d in
      let r := n mod d in
      let k := match 2 * r ?= d with
               | Lt => q
               | Gt => q + 1
               | Eq => if Z.even q then q else q + 1
               end in
      match k with
      | Zpos p => float_of_ratio s p 100
      | _ => if s then neg_zero else zero
      end
  | _ => x
  end.

(** Truth value of a float: false for [0.0] and [-0.0] only. *)
Definition truthy (x : float) : bool := negb (x =? 0)%float.

End Py.

(** ** The table of events

    Both schemas declare the same columns.  [kind] is NOT NULL and checked
    to be one of buy, sell, balance by the table; the other columns are
    nullable. *)

Record row := {
  rowid : Z;
  ts : string;
  kind : string;
  product : option string;
  unit_price : option float;
  qty : option Z;
  comment : option string;
  value : option float
}.

(** The three INSERT statements of the routes, by the parameters they bind. *)
Inductive event :=
| Buy (name : string) (price : float) (q : Z)
| Sell (name : string) (price : float) (q : Z)
| Balance (note : string) (val : float).

Abbreviation stock_map := (gmap (option string) Z).

(** The tables are not STRICT: a numeric column holds NULL, a number of
    its declared type, or a text that SQLite could not read as a number
    and kept as it was. *)
Inductive cell (A : Type) :=
| Null
| Number (a : A)
| Text (s : string).
Arguments Null {A}.
Arguments Number {A} a.
Arguments Text {A} s.

(** A row as the file of the database may hold it. *)
Record stored := {
  s_rowid : Z;
  s_ts : string;
  s_kind : string;
  s_product : option string;
  s_unit_price : cell float;
  s_qty : cell Z;
  s_comment : option string;
  s_value : cell float
}.



Module Sql.

(** An INTEGER is a signed integer of 64 bits: binding a larger Python
    int raises OverflowError. *)
Definition int64 (z : Z) : Prop := - 2 ^ 63 <= z < 2 ^ 63.

Definition bind_int (z : Z) : outcome Z :=
  if decide (int64 z) then Ok z else Raise OverflowError.

(** A REAL parameter as the column gives it back: NaN is stored as NULL,
    and a zero comes back as [0.0] whatever its sign. *)
Definition bind_real (x : float) : option float :=
  if is_nan x then None
  else if is_zero x then Some 0%float
  else Some x.

(** The largest id handed out so far (AUTOINCREMENT, no row ever deleted). *)
Definition last_id (t : list row) : Z :=
  fold_right (fun r m => Z.max (rowid r) m) 0 t.

Definition new_row (i : Z) (now : string) (e : event) : outcome row :=
  match e with
  | Buy name price q =>
      q' ← bind_int q;
      Ok {| rowid := i; ts := now; kind := "buy"; product := Some name;
            unit_price := bind_real price; qty := Some q';
            comment := None; value := None |}
  | Sell name price q =>
      q' ← bind_int q;
      Ok {| rowid := i; ts := now; kind := "sell"; product := Some name;
            unit_price := bind_real price; qty := Some q';
            comment := None; value := None |}
  | Balance note val =>
      Ok {| rowid := i; ts := now; kind := "balance"; product := None;
            unit_price := None; qty := None;
            comment := Some note; value := bind_real val |}
  end.

(** INSERT INTO ... VALUES (...) *)
Definition insert (now : string) (e : event) (t : list row) : outcome (list row) :=
  r ← new_row (last_id t + 1) now e;
  Ok (t ++ [r])%list.

(** ORDER BY id: [before i j] says that id [i] may come before id [j]. *)
Fixpoint place (before : Z -> Z -> bool) (r : row) (l : list row) : list row :=
  match l with
  | [] => [r]
  | h :: l' =>
      if before (rowid r) (rowid h) then r :: l else h :: place before r l'
  end.

Definition order_by_id (before : Z -> Z -> bool) (t : list row) : list row :=
  fold_right (place before) [] t.

(** A row that may come before another under [before]. *)
Definition precedes (before : Z -> Z -> bool) (x y : row) : Prop :=
  before (rowid x) (rowid y) = true.

Definition asc : Z -> Z -> bool := Z.leb.
Definition desc : Z -> Z -> bool := Z.geb.

(** ORDER BY id ASC over rows as stored. *)
Fixpoint place_stored (r : stored) (l : list stored) : list stored :=
  match l with
  | [] => [r]
  | h :: l' =>
      if s_rowid r <=? s_rowid h then r :: l else h :: place_stored r l'
  end.

Definition order_stored (t : list stored) : list stored :=
  fold_right place_stored [] t.

(** WHERE id BETWEEN a AND b *)
Definition between (a b : Z) (t : list row) : list row :=
  filter (fun r => a <= rowid r <= b) t.

End Sql.

(** ** What a route hands back *)

(** [flash(message, category)] *)
Definition flash := (string * string)%type.

(** The reply of a POST route: the table as the request leaves it, the
    messages flashed, and the endpoint redirected to. *)
Record reply := {
  table : list row;
  flashed : list flash;
  location : string
}.

(** The variables a template is rendered with. *)
Record page := {
  rows : list row;
  scope : option (Z * Z);
  stock : stock_map;
  cash : float
}.

(** The table after a request: an exception leaves it as it was. *)
Definition table_after (t : list row) (o : outcome reply) : list row :=
  match o with
  | Ok r => table r
  | Raise _ => t
  end.

(** A request is turned down with a reason when it comes back normally
    with a message of category error. *)
Definition rejected (o : outcome reply) : Prop :=
  match o with
  | Ok r => exists msg, flashed r = [(msg, "error")] /\ msg <> ""
  | Raise _ => False
  end.

Section Request.
Variable form : gmap string string.

(** [request.form.get(k)], [request.form.get(k, d)] *)
Definition get (k : string) : option string := form !! k.
Definition get_or (k d : string) : string := default d (form !! k).

(** [request.form.get(k) or ""] *)
Definition get_or_empty (k : string) : string := default "" (form !! k).
End Request.

(** [k == s] for a form field read with [get]. *)
Definition eq_str (k : option string) (s : string) : bool :=
  match k with
  | Some k => String.eqb k s
  | None => false
  end.

(** [not s] for a form field read with [get]. *)
Definition missing (o : option string) : bool :=
  match o with
  | Some s => String.eqb s ""
  | None => true
  end.

(** [x or 0] on a nullable INTEGER and [x or 0.0] on a nullable REAL. *)
Definition int_or_zero (o : option Z) : Z :=
  match o with
  | Some z => z
  | None => 0
  end.

Definition float_or_zero (o : option float) : float :=
  match o with
  | Some x => if Py.truthy x then x else 0%float
  | None => 0%float
  end.

(** A value of Python read from a numeric column: a number, or a str. *)
Inductive pyval (A : Type) :=
| Num (a : A)
| Str (s : string).
Arguments Num {A} a.
Arguments Str {A} s.

(** [c or zero] on a column as stored: NULL, a zero and the empty text are
    false. *)
Definition cell_or {A} (truth : A -> bool) (zero : A) (c : cell A) : pyval A :=
  match c with
  | Null => Num zero
  | Number a => if truth a then Num a else Num zero
  | Text s => if String.eqb s "" then Num zero else Str s
  end.

Definition nonzero (z : Z) : bool := negb (z =? 0).

(** An outcome with the exception forgotten: [None] when one is raised. *)
Definition returned {A} (o : outcome A) : option A :=
  match o with
  | Ok a => Some a
  | Raise _ => None
  end.

(** [float(v)] and [int(v)] on a value read from a column. *)
Definition float_of_val (v : pyval float) : option float :=
  match v with
  | Num x => Some x
  | Str s => returned (Py.float_of_str s)
  end.

Definition int_of_val (v : pyval Z) : option Z :=
  match v with
  | Num z => Some z
  | Str s => returned (Py.int s)
  end.

(** ** app.py *)

Module App.

(** One turn of the loop of [calc_state]. *)
Definition tally (s : stock_map * float) (r : row) : outcome (stock_map * float) :=
  let '(stock, cash) := s in
  if String.eqb (kind r) "buy" then
    let product := product r in
    let qty := int_or_zero (qty r) in
    let price := float_or_zero (unit_price r) in
    let stock := <[product := default 0 (stock !! product) + qty]> stock in
    q ← Py.float_of_int qty;
    Ok (stock, (cash - price * q)%float)
  else if String.eqb (kind r) "sell" then
    let product := product r in
    let qty := int_or_zero (qty r) in
    let price := float_or_zero (unit_price r) in
    let stock := <[product := default 0 (stock !! product) - qty]> stock in
    q ← Py.float_of_int qty;
    Ok (stock, (cash + price * q)%float)
  else if String.eqb (kind r) "balance" then
    Ok (stock, (cash + float_or_zero (value r))%float)
  else Ok (stock, cash).

Fixpoint replay (l : list row) (s : stock_map * float) : outcome (stock_map * float) :=
  match l with
  | [] => Ok s
  | r :: l' => s' ← tally s r; replay l' s'
  end.

Definition calc_state (db : list row) : outcome (stock_map * float) :=
  '(stock, cash) ← replay (Sql.order_by_id Sql.asc db) (∅, 0%float);
  let stock := filter (fun kv : option string * Z => kv.2 <> 0) stock in
  Ok (stock, Py.round2 cash).

Definition index (db : list row) : outcome page :=
  '(stock, cash) ← calc_state db;
  Ok {| rows := []; scope := None; stock := stock; cash := cash |}.

(** The body shared by [buy] and [sell], which differ in the kind they
    insert and in the message of success. *)
Definition trade (mk : string -> float -> Z -> event) (done : string)
    (form : gmap string string) (now : string) (db : list row) : outcome reply :=
  let product := Py.strip (get_or_empty form "product") in
  let unit_price := get form "unit_price" in
  let qty := get form "qty" in
  if String.eqb product "" || missing unit_price || missing qty then
    Ok {| table := db;
          flashed := [("Uzupełnij: nazwa, cena, liczba sztuk.", "error")];
          location := "index" |}
  else
    let parsed :=
      price ← Py.float_of_str (default "" unit_price);
      q ← Py.int (default "" qty);
      if (q <=? 0) || (price <? 0)%float then Raise ValueError
      else Ok (price, q) in
    match parsed with
    | Raise ValueError =>
        Ok {| table := db;
              flashed := [("Cena musi być liczbą, ilość dodatnia.", "error")];
              location := "index" |}
    | Raise e => Raise e
    | Ok (price, q) =>
        db' ← Sql.insert now (mk product price q) db;
        Ok {| table := db'; flashed := [(done, "ok")]; location := "index" |}
    end.

Definition buy := trade Buy "Zakup zapisany.".
Definition sell := trade Sell "Sprzedaż zapisana.".

Definition balance (form : gmap string string) (now : string) (db : list row)
    : outcome reply :=
  let comment := Py.strip (get_or_empty form "comment") in
  let value := get form "value" in
  if missing value then
    Ok {| table := db;
          flashed := [("Podaj wartość (liczbowa).", "error")];
          location := "index" |}
  else
    match Py.float_of_str (default "" value) with
    | Raise ValueError =>
        Ok {| table := db;
              flashed := [("Wartość musi być liczbą.", "error")];
              location := "index" |}
    | Raise e => Raise e
    | Ok val =>
        db' ← Sql.insert now (Balance comment val) db;
        Ok {| table := db';
              flashed := [("Zmiana salda zapisana.", "ok")];
              location := "index" |}
    end.

Definition history (line_from line_to : option Z) (db : list row) : outcome page :=
  '(rows, scope) ←
    match line_from, line_to with
    | Some line_from, Some line_to =>
        let '(line_from, line_to) :=
          if line_to <? line_from then (line_to, line_from)
          else (line_from, line_to) in
        a ← Sql.bind_int line_from;
        b ← Sql.bind_int line_to;
        Ok (Sql.order_by_id Sql.desc (Sql.between a b db),
            Some (line_from, line_to))
    | _, _ => Ok (Sql.order_by_id Sql.desc db, None)
    end;
  '(stock, cash) ← calc_state db;
  Ok {| rows := rows; scope := scope; stock := stock; cash := cash |}.

(** The loop of [calc_state] over rows as stored; [None] when an
    exception is raised.  An int plus a str is a TypeError; a str times an
    int is a str when there is memory for it, and a float minus or plus a
    str a TypeError. *)
Definition tally_stored (s : stock_map * float) (r : stored)
    : option (stock_map * float) :=
  let '(stock, cash) := s in
  if String.eqb (s_kind r) "buy" then
    let product := s_product r in
    let qty := cell_or nonzero 0 (s_qty r) in
    let price := cell_or Py.truthy 0%float (s_unit_price r) in
    match qty, price with
    | Num qty, Num price =>
        let stock := <[product := default 0 (stock !! product) + qty]> stock in
        q ← returned (Py.float_of_int qty);
        Some (stock, (cash - price * q)%float)
    | _, _ => None
    end
  else if String.eqb (s_kind r) "sell" then
    let product := s_product r in
    let qty := cell_or nonzero 0 (s_qty r) in
    let price := cell_or Py.truthy 0%float (s_unit_price r) in
    match qty, price with
    | Num qty, Num price =>
        let stock := <[product := default 0 (stock !! product) - qty]> stock in
        q ← returned (Py.float_of_int qty);
        Some (stock, (cash + price * q)%float)
    | _, _ => None
    end
  else if String.eqb (s_kind r) "balance" then
    x ← float_of_val (cell_or Py.truthy 0%float (s_value r));
    Some (stock, (cash + x)%float)
  else Some (stock, cash).

Fixpoint replay_stored (l : list stored) (s : stock_map * float)
    : option (stock_map * float) :=
  match l with
  | [] => Some s
  | r :: l' => s' ← tally_stored s r; replay_stored l' s'
  end.

Definition calc_state_stored (db : list stored) : option (stock_map * float) :=
  '(stock, cash) ← replay_stored (Sql.order_stored db) (∅, 0%float);
  let stock := filter (fun kv : option string * Z => kv.2 <> 0) stock in
  Some (stock, Py.round2 cash).

End App.

(** ** system_accountant.py *)

Module SystemAccountant.

(** One turn of the loop of [calc_state]; [int(...)] and [float(...)] are
    applied to an int and to a float there and change nothing. *)
Definition tally (s : stock_map * float) (r : row) : outcome (stock_map * float) :=
  let '(stock, cash) := s in
  if String.eqb (kind r) "buy" then
    let name := product r in
    let qty := int_or_zero (qty r) in
    let price := float_or_zero (unit_price r) in
    let stock := <[name := default 0 (stock !! name) + qty]> stock in
    q ← Py.float_of_int qty;
    Ok (stock, (cash - price * q)%float)
  else if String.eqb (kind r) "sell" then
    let name := product r in
    let qty := int_or_zero (qty r) in
    let price := float_or_zero (unit_price r) in
    let stock := <[name := default 0 (stock !! name) - qty]> stock in
    q ← Py.float_of_int qty;
    Ok (stock, (cash + price * q)%float)
  else if String.eqb (kind r) "balance" then
    Ok (stock, (cash + float_or_zero (value r))%float)
  else Ok (stock, cash).

Fixpoint replay (l : list row) (s : stock_map * float) : outcome (stock_map * float) :=
  match l with
  | [] => Ok s
  | r :: l' => s' ← tally s r; replay l' s'
  end.

Definition calc_state (db : list row) : outcome (stock_map * float) :=
  '(stock, cash) ← replay (Sql.order_by_id Sql.asc db) (∅, 0%float);
  let stock := filter (fun kv : option string * Z => kv.2 <> 0) stock in
  Ok (stock, cash).

Definition index (db : list row) : outcome page :=
  '(stock, cash) ← calc_state db;
  Ok {| rows := []; scope := None; stock := stock; cash := cash |}.

(** [float(s or 0)] and [int(s or 0)] on a form field. *)
Definition float_or_0 (s : string) : outcome float :=
  if String.eqb s "" then Ok 0%float else Py.float_of_str s.

Definition int_or_0 (s : string) : outcome Z :=
  if String.eqb s "" then Ok 0 else Py.int s.

(** The branch shared by the kinds buy and sell of [add_event]; it hands
    back the table and the messages flashed. *)
Definition trade (mk : string -> float -> Z -> event) (pre done : string)
    (form : gmap string string) (now : string) (db : list row)
    : outcome (list row * list flash) :=
  let name := Py.strip (get_or form (pre ++ "_name") "") in
  price ← float_or_0 (get_or form (pre ++ "_price") "0");
  qty ← int_or_0 (get_or form (pre ++ "_qty") "0");
  if String.eqb name "" || (qty <=? 0) then
    Ok (db, [("Podaj nazwę produktu i dodatnią liczbę sztuk.", "error")])
  else
    db' ← Sql.insert now (mk name price qty) db;
    Ok (db', [(done, "ok")]).

Definition add_event (form : gmap string string) (now : string) (db : list row)
    : outcome reply :=
  let kind := get form "form_name" in
  '(db', msgs) ←
    if eq_str kind "buy" then trade Buy "buy" "Zakup zapisany." form now db
    else if eq_str kind "sell" then trade Sell "sell" "Sprzedaż zapisana." form now db
    else if eq_str kind "balance" then
      let comment := Py.strip (get_or form "bal_comment" "") in
      let value :=
        match Py.float_of_str (get_or form "bal_value" "0") with
        | Ok v => Ok (Some v)
        | Raise ValueError => Ok None
        | Raise e => Raise e
        end in
      value ← value;
      match value with
      | None => Ok (db, [("Wartość salda musi być liczbą.", "error")])
      | Some value =>
          db' ← Sql.insert now (Balance comment value) db;
          Ok (db', [("Zmiana salda zapisana.", "ok")])
      end
    else Ok (db, []);
  Ok {| table := db'; flashed := msgs; location := "index" |}.

Definition history (line_from line_to : option Z) (db : list row) : outcome page :=
  '(rows, scope) ←
    match line_from, line_to with
    | Some line_from, Some line_to =>
        a ← Sql.bind_int line_from;
        b ← Sql.bind_int line_to;
        Ok (Sql.order_by_id Sql.asc (Sql.between a b db),
            Some (line_from, line_to))
    | _, _ => Ok (Sql.order_by_id Sql.asc db, None)
    end;
  '(stock, cash) ← calc_state db;
  Ok {| rows := rows; scope := scope; stock := stock; cash := cash |}.

(** The three routes left as stubs: a message, nothing written. *)
Definition stub (msg : string) (db : list row) : outcome reply :=
  Ok {| table := db; flashed := [(msg, "message")]; location := "index" |}.

Definition buy := stub "Zakup zapisany (stub).".
Definition sell := stub "Sprzedaż zapisana (stub).".
Definition cash := stub "Zmiana salda zapisana (stub).".

(** The loop of [calc_state] over rows as stored; [None] when an
    exception is raised: here [int(...)] and [float(...)] parse a text, and
    raise ValueError on one that is no numeral. *)
Definition tally_stored (s : stock_map * float) (r : stored)
    : option (stock_map * float) :=
  let '(stock, cash) := s in
  if String.eqb (s_kind r) "buy" then
    let name := s_product r in
    qty ← int_of_val (cell_or nonzero 0 (s_qty r));
    price ← float_of_val (cell_or Py.truthy 0%float (s_unit_price r));
    let stock := <[name := default 0 (stock !! name) + qty]> stock in
    q ← returned (Py.float_of_int qty);
    Some (stock, (cash - price * q)%float)
  else if String.eqb (s_kind r) "sell" then
    let name := s_product r in
    qty ← int_of_val (cell_or nonzero 0 (s_qty r));
    price ← float_of_val (cell_or Py.truthy 0%float (s_unit_price r));
    let stock := <[name := default 0 (stock !! name) - qty]> stock in
    q ← returned (Py.float_of_int qty);
    Some (stock, (cash + price * q)%float)
  else if String.eqb (s_kind r) "balance" then
    x ← float_of_val (cell_or Py.truthy 0%float (s_value r));
    Some (stock, (cash + x)%float)
  else Some (stock, cash).

Fixpoint replay_stored (l : list stored) (s : stock_map * float)
    : option (stock_map * float) :=
  match l with
  | [] => Some s
  | r :: l' => s' ← tally_stored s r; replay_stored l' s'
  end.

Definition calc_state_stored (db : list stored) : option (stock_map * float) :=
  '(stock, cash) ← replay_stored (Sql.order_stored db) (∅, 0%float);
  let stock := filter (fun kv : option string * Z => kv.2 <> 0) stock in
  Some (stock, cash).

End SystemAccountant.

(** ** The words of the specification *)

Module Spec.

(** Section 4.2, step 2: what one event does to the stock and the cash. *)
Definition apply (s : stock_map * float) (e : event) : stock_map * float :=
  let '(stock, cash) := s in
  match e with
  | Buy name price q =>
      (<[Some name := default 0 (stock !! Some name) + q]> stock,
       (cash - price * Py.float_of_Z q)%float)
  | Sell name price q =>
      (<[Some name := default 0 (stock !! Some name) - q]> stock,
       (cash + price * Py.float_of_Z q)%float)
  | Balance _ val => (stock, (cash + val)%float)
  end.

(** Section 4.2, steps 1 and 2: the left fold from empty stock and zero
    cash. *)
Definition project (events : list event) : stock_map * float :=
  fold_left apply events (∅, 0%float).

(** Section 4.2, step 3: products at zero leave the mapping. *)
Definition elide (stock : stock_map) : stock_map :=
  filter (fun kv : option string * Z => kv.2 <> 0) stock.

(** Two floats that stand for the same number: the same float, or two
    zeros (which [==] does not tell apart). *)
Definition same_number (x y : float) : Prop :=
  x = y \/ (is_zero x = true /\ is_zero y = true).

(** What a stored row adds to the quantity of a product. *)
Definition moved (name : option string) (r : row) : Z :=
  if decide (product r = name) then
    if String.eqb (kind r) "buy" then int_or_zero (qty r)
    else if String.eqb (kind r) "sell" then - int_or_zero (qty r)
    else 0
  else 0.

(** The net quantity of a product over a sequence of rows. *)
Definition net_qty (name : option string) (l : list row) : Z :=
  foldr (fun r n => moved name r + n) 0 l.

(** What a stored row does to the cash, and the sum accumulated over a
    sequence of rows, nothing rounded. *)
Definition pay (cash : float) (r : row) : float :=
  if String.eqb (kind r) "buy" then
    (cash - float_or_zero (unit_price r) * Py.float_of_Z (int_or_zero (qty r)))%float
  else if String.eqb (kind r) "sell" then
    (cash + float_or_zero (unit_price r) * Py.float_of_Z (int_or_zero (qty r)))%float
  else if String.eqb (kind r) "balance" then
    (cash + float_or_zero (value r))%float
  else cash.

Definition accumulated (l : list row) : float := fold_left pay l 0%float.

(** A row with zero written where a numeric column is NULL. *)
Definition null_as_zero (r : row) : row :=
  {| rowid := rowid r; ts := ts r; kind := kind r; product := product r;
     unit_price := Some (default 0%float (unit_price r));
     qty := Some (default 0 (qty r));
     comment := comment r;
     value := Some (default 0%float (value r)) |}.

(** Ascending and descending by id. *)
Definition ascending (l : list row) : Prop :=
  StronglySorted (fun x y => rowid x <= rowid y) l.

Definition descending (l : list row) : Prop :=
  StronglySorted (fun x y => rowid y <= rowid x) l.

End Spec.

(** An event whose fields the table keeps as they are: a quantity of 64
    bits, a price or a value that is a number. *)
Definition storable (e : event) : Prop :=
  match e with
  | Buy _ price q | Sell _ price q => Sql.int64 q /\ is_nan price = false
  | Balance _ val => is_nan val = false
  end.

(** A row as the table can hold it: its quantity is of 64 bits. *)
Definition typed (r : row) : Prop := Sql.int64 (int_or_zero (qty r)).

(** Events appended in turn, each with the time of its request. *)
Fixpoint append (events : list (string * event)) (db : list row) : outcome (list row) :=
  match events with
  | [] => Ok db
  | (now, e) :: events' => db' ← Sql.insert now e db; append events' db'
  end.

(** The snapshot a page shows. *)
Definition snapshot (o : outcome page) : outcome (stock_map * float) :=
  p ← o; Ok (stock p, cash p).

(** One product moved by a row of the loop of [calc_state], without the
    conversion that can fail. *)
Definition tallied (s : stock_map * float) (r : row) : stock_map * float :=
  let stock :=
    if String.eqb (kind r) "buy" then
      <[product r := default 0 (s.1 !! product r) + int_or_zero (qty r)]> s.1
    else if String.eqb (kind r) "sell" then
      <[product r := default 0 (s.1 !! product r) - int_or_zero (qty r)]> s.1
    else s.1 in
  (stock, Spec.pay s.2 r).

(** ** The scenarios of section 8 *)

(** The table a sequence of events leaves, from the empty one. *)
Definition table_of (events : list (string * event)) : list row :=
  match append events [] with
  | Ok db => db
  | Raise _ => []
  end.

Definition scenario_a : list row :=
  table_of [("2024-01-01T10:00:00", Buy "Widget" 10 5)].

Definition scenario_b : list row :=
  table_of [("2024-01-01T10:00:00", Buy "Widget" 10 5);
            ("2024-01-01T10:05:00", Sell "Widget" 12 5)].

Definition scenario_c : list row :=
  table_of [("2024-01-01T10:00:00", Buy "Widget" 10 5);
            ("2024-01-01T10:05:00", Sell "Widget" 12 5);
            ("2024-01-01T10:10:00", Balance "fee" (-3.5))].

(** A table with rows whose numeric columns are NULL, as older data may
    have them. *)
Definition legacy : list row :=
  [ {| rowid := 1; ts := "2023-12-31T09:00:00"; kind := "buy";
       product := Some "Widget"; unit_price := None; qty := Some 3;
       comment := None; value := None |};
    {| rowid := 2; ts := "2023-12-31T09:30:00"; kind := "sell";
       product := Some "Widget"; unit_price := Some 4%float; qty := None;
       comment := None; value := None |};
    {| rowid := 3; ts := "2023-12-31T10:00:00"; kind := "balance";
       product := None; unit_price := None; qty := None;
       comment := None; value := None |} ].

(** A table of one adjustment of an eighth, a value with three decimals
    that a float holds exactly. *)
Definition eighth : list row :=
  table_of [("2024-01-03T12:00:00", Balance "rounding" 0.125)].

(** ** Requests in sequence *)

(** The POST requests of app.py, each with its form and the time it
    comes at. *)
Inductive app_request :=
| PostBuy (form : gmap string string) (now : string)
| PostSell (form : gmap string string) (now : string)
| PostBalance (form : gmap string string) (now : string).

Definition app_post (q : app_request) (db : list row) : outcome reply :=
  match q with
  | PostBuy form now => App.buy form now db
  | PostSell form now => App.sell form now db
  | PostBalance form now => App.balance form now db
  end.

(** The POST requests of system_accountant.py: [/add] and the three
    stubs. *)
Inductive sa_request :=
| PostAdd (form : gmap string string) (now : string)
| PostStubBuy
| PostStubSell
| PostStubCash.

Definition sa_post (q : sa_request) (db : list row) : outcome reply :=
  match q with
  | PostAdd form now => SystemAccountant.add_event form now db
  | PostStubBuy => SystemAccountant.buy db
  | PostStubSell => SystemAccountant.sell db
  | PostStubCash => SystemAccountant.cash db
  end.

(** Requests served one after the other; one that ends in an exception
    leaves the table as it found it. *)
Fixpoint app_serve (qs : list app_request) (db : list row) : list row :=
  match qs with
  | [] => db
  | q :: qs' => app_serve qs' (table_after db (app_post q db))
  end.

Fixpoint sa_serve (qs : list sa_request) (db : list row) : list row :=
  match qs with
  | [] => db
  | q :: qs' => sa_serve qs' (table_after db (sa_post q db))
  end.

(** A table left as it was, or with one row more at its end, under the
    next id. *)
Definition grown (db db' : list row) : Prop :=
  db' = db \/ exists r, db' = (db ++ [r])%list /\ rowid r = Sql.last_id db + 1.

(** The ids 1 to n, in this order. *)
Definition ids_to (n : nat) : list Z := map Z.of_nat (seq 1 n).

(** A row as the forms let it in: a buy or a sell of a named product in
    a positive quantity of 64 bits, or an adjustment of the balance. *)
Definition sound (r : row) : Prop :=
  ((kind r = "buy" \/ kind r = "sell") /\
   (exists name q, product r = Some name /\ name <> "" /\
                   qty r = Some q /\ 0 < q < 2 ^ 63) /\
   comment r = None /\ value r = None)
  \/ (kind r = "balance" /\ product r = None /\ unit_price r = None /\
      qty r = None /\ exists note, comment r = Some note).

(** A row whose unit price, when it has one, is not below zero. *)
Definition priced (r : row) : Prop :=
  forall p, unit_price r = Some p -> (p <? 0)%float = false.

(** An event a form lets in: a trade names its product and moves a
    positive quantity. *)
Definition admissible (e : event) : Prop :=
  match e with
  | Buy name _ q | Sell name _ q => name <> "" /\ 0 < q
  | Balance _ _ => True
  end.

(** An event whose price, when it has one, is not below zero. *)
Definition not_below_zero (e : event) : Prop :=
  match e with
  | Buy _ price _ | Sell _ price _ => (price <? 0)%float = false
  | Balance _ _ => True
  end.

(** ** Rows as stored *)








(** * Proofs *)

(** ** ORDER BY *)

Lemma strongly_sorted_impl {A} (R1 R2 : A -> A -> Prop) l :
  (forall x y, R1 x y -> R2 x y) -> StronglySorted R1 l -> StronglySorted R2 l.
Proof.
  intros H. induction 1 as [|x l _ IH Hx]; constructor; [done|].
  eapply Forall_impl; [exact Hx|]. auto.
Qed.

Section Order.
Variable before : Z -> Z -> bool.

Abbreviation R := (Sql.precedes before).

Lemma place_perm r l : Sql.place before r l ≡ₚ r :: l.
Proof.
  induction l as [|h l IH]; simpl; [done|].
  destruct (before (rowid r) (rowid h)); [done|].
  rewrite IH. apply Permutation_swap.
Qed.

Lemma order_by_id_perm t : Sql.order_by_id before t ≡ₚ t.
Proof.
  induction t as [|r t IH]; simpl; [done|].
  rewrite place_perm. by rewrite IH.
Qed.

Lemma order_by_id_sorted_same l :
  StronglySorted R l -> Sql.order_by_id before l = l.
Proof.
  induction 1 as [|r l Hl IH Hr]; simpl; [done|].
  rewrite IH. destruct l as [|h l]; simpl; [done|].
  apply Forall_cons in Hr as [Hh _]. unfold Sql.precedes in Hh. by rewrite Hh.
Qed.

Hypothesis before_total : forall i j, before i j = false -> before j i = true.
Hypothesis before_trans :
  forall i j k, before i j = true -> before j k = true -> before i k = true.

Lemma place_sorted r l :
  StronglySorted R l -> StronglySorted R (Sql.place before r l).
Proof.
  induction 1 as [|h l Hl IH Hh]; simpl.
  - repeat constructor.
  - destruct (before (rowid r) (rowid h)) eqn:E.
    + constructor; [by constructor|].
      constructor; [done|].
      eapply Forall_impl; [exact Hh|]. intros y Hy. eapply before_trans; eauto.
    + constructor; [done|].
      rewrite place_perm. constructor; [|done].
      by apply before_total.
Qed.

Lemma order_by_id_sorted t : StronglySorted R (Sql.order_by_id before t).
Proof.
  induction t as [|r t IH]; simpl; [constructor|]. by apply place_sorted.
Qed.
End Order.

Lemma order_asc_ascending t : Spec.ascending (Sql.order_by_id Sql.asc t).
Proof.
  unfold Spec.ascending.
  eapply strongly_sorted_impl; [|apply (order_by_id_sorted Sql.asc)].
  - intros x y H. apply Z.leb_le, H.
  - unfold Sql.asc. intros i j H. apply Z.leb_le. apply Z.leb_gt in H. lia.
  - unfold Sql.asc. intros i j k H1 H2. apply Z.leb_le.
    apply Z.leb_le in H1, H2. lia.
Qed.

Lemma order_desc_descending t : Spec.descending (Sql.order_by_id Sql.desc t).
Proof.
  unfold Spec.descending.
  eapply strongly_sorted_impl; [|apply (order_by_id_sorted Sql.desc)].
  - intros x y H. apply Z.geb_le, H.
  - unfold Sql.desc. intros i j H. apply Z.geb_le.
    destruct (Z.geb_spec i j); [done|lia].
  - unfold Sql.desc. intros i j k H1 H2. apply Z.geb_le.
    apply Z.geb_le in H1, H2. lia.
Qed.

Lemma order_asc_same l : Spec.ascending l -> Sql.order_by_id Sql.asc l = l.
Proof.
  intros H. apply order_by_id_sorted_same.
  eapply strongly_sorted_impl; [|exact H].
  intros x y Hxy. by apply Z.leb_le.
Qed.

(** ** The loop of calc_state *)

Lemma float_of_int_typed z :
  Sql.int64 z -> Py.float_of_int z = Ok (Py.float_of_Z z).
Proof.
  intros [Hlo Hhi]. unfold Py.float_of_int.
  assert (Hbig : 2 ^ 63 < 2 ^ 1024 - 2 ^ 970) by reflexivity.
  destruct (Z.ltb_spec (Z.abs z) (2 ^ 1024 - 2 ^ 970)) as [|Hge]; [done|].
  exfalso. revert Hlo Hhi Hbig Hge.
  generalize (2 ^ 1024 - 2 ^ 970) (2 ^ 63). lia.
Qed.

Lemma tally_typed s r : typed r -> App.tally s r = Ok (tallied s r).
Proof.
  intros H. destruct s as [stock cash].
  unfold App.tally, tallied, Spec.pay; simpl.
  repeat case_match; simpl; rewrite ?float_of_int_typed by done; done.
Qed.

Lemma replay_typed l s :
  Forall typed l -> App.replay l s = Ok (fold_left tallied l s).
Proof.
  intros H. revert s. induction H as [|r l Hr _ IH]; intros s; simpl; [done|].
  rewrite tally_typed by done. simpl. apply IH.
Qed.

Lemma replay_same l s : SystemAccountant.replay l s = App.replay l s.
Proof.
  revert s. induction l as [|r l IH]; intros s; simpl; [done|].
  change (SystemAccountant.tally s r) with (App.tally s r).
  destruct (App.tally s r); simpl; [apply IH|done].
Qed.

Lemma replay_app l1 l2 s :
  App.replay (l1 ++ l2) s = (s' ← App.replay l1 s; App.replay l2 s').
Proof.
  revert s. induction l1 as [|r l1 IH]; intros s; simpl; [done|].
  destruct (App.tally s r); simpl; [apply IH|done].
Qed.

Lemma fold_tallied_cash l s :
  (fold_left tallied l s).2 = fold_left Spec.pay l s.2.
Proof.
  revert s. induction l as [|r l IH]; intros s; simpl; [done|]. by rewrite IH.
Qed.

Lemma tallied_stock s r name :
  default 0 ((tallied s r).1 !! name)
  = default 0 (s.1 !! name) + Spec.moved name r.
Proof.
  unfold tallied, Spec.moved; simpl.
  destruct (decide (product r = name)) as [->|Hne].
  - repeat case_match; rewrite ?lookup_insert_eq; simpl; lia.
  - repeat case_match; rewrite ?lookup_insert_ne by done; lia.
Qed.

Lemma fold_tallied_stock l s name :
  default 0 ((fold_left tallied l s).1 !! name)
  = default 0 (s.1 !! name) + Spec.net_qty name l.
Proof.
  revert s. induction l as [|r l IH]; intros s; simpl; [lia|].
  rewrite IH, tallied_stock. lia.
Qed.

Lemma net_qty_perm name l1 l2 :
  l1 ≡ₚ l2 -> Spec.net_qty name l1 = Spec.net_qty name l2.
Proof.
  induction 1; simpl; lia.
Qed.

Lemma typed_order before db :
  Forall typed db -> Forall typed (Sql.order_by_id before db).
Proof. intros H. by rewrite order_by_id_perm. Qed.

Lemma app_calc_state_typed db :
  Forall typed db ->
  App.calc_state db
  = Ok (Spec.elide (fold_left tallied (Sql.order_by_id Sql.asc db) (∅, 0%float)).1,
        Py.round2 (Spec.accumulated (Sql.order_by_id Sql.asc db))).
Proof.
  intros H. unfold App.calc_state.
  rewrite replay_typed by by apply typed_order. simpl.
  unfold Spec.accumulated.
  rewrite <- (fold_tallied_cash _ (∅, 0%float)).
  by destruct (fold_left tallied _ _).
Qed.

Lemma sa_calc_state_typed db :
  Forall typed db ->
  SystemAccountant.calc_state db
  = Ok (Spec.elide (fold_left tallied (Sql.order_by_id Sql.asc db) (∅, 0%float)).1,
        Spec.accumulated (Sql.order_by_id Sql.asc db)).
Proof.
  intros H. unfold SystemAccountant.calc_state.
  rewrite replay_same, replay_typed by by apply typed_order. simpl.
  unfold Spec.accumulated.
  rewrite <- (fold_tallied_cash _ (∅, 0%float)).
  by destruct (fold_left tallied _ _).
Qed.

Lemma elide_lookup (stock : stock_map) name :
  Spec.elide stock !! name
  = if decide (default 0 (stock !! name) = 0) then None
    else Some (default 0 (stock !! name)).
Proof.
  unfold Spec.elide. destruct (stock !! name) as [v|] eqn:E; simpl.
  - destruct (decide (v = 0)) as [->|Hv].
    + apply map_lookup_filter_None. right. intros x Hx. simpl. naive_solver.
    + by apply map_lookup_filter_Some.
  - apply map_lookup_filter_None. by left.
Qed.

(** ** Net-zero elision *)

(** C7: over any table the store can hold, both projectors return, with
    the same stock mapping, and that mapping holds a product exactly when
    its net quantity over the rows is not zero, at that quantity: a product
    at net zero is absent, and no entry is zero. *)
Theorem net_zero_elided db :
  Forall typed db ->
  exists stock c1 c2,
    App.calc_state db = Ok (stock, c1) /\
    SystemAccountant.calc_state db = Ok (stock, c2) /\
    forall name,
      (Spec.net_qty name db = 0 -> stock !! name = None) /\
      (forall v, stock !! name = Some v -> v <> 0 /\ v = Spec.net_qty name db).
Proof.
  intros H. eexists _, _, _.
  split; [by apply app_calc_state_typed|].
  split; [by apply sa_calc_state_typed|].
  intros name. rewrite elide_lookup, fold_tallied_stock. simpl.
  rewrite lookup_empty. simpl.
  rewrite (net_qty_perm _ _ _ (order_by_id_perm Sql.asc db)).
  destruct (decide (0 + Spec.net_qty name db = 0)) as [E|E].
  - split; [done|]. intros v Hv. discriminate.
  - split; [lia|]. intros v [= <-]. lia.
Qed.

Lemma net_zero_elided_witness :
  exists stock c1 c2,
    App.calc_state scenario_b = Ok (stock, c1) /\
    SystemAccountant.calc_state scenario_b = Ok (stock, c2) /\
    forall name,
      (Spec.net_qty name scenario_b = 0 -> stock !! name = None) /\
      (forall v, stock !! name = Some v ->
                 v <> 0 /\ v = Spec.net_qty name scenario_b).
Proof.
  apply (net_zero_elided scenario_b).
  repeat constructor; vm_compute; congruence.
Defined.

(** ** Totality, and NULL read as zero *)

Lemma float_or_zero_default o :
  float_or_zero (Some (default 0%float o)) = float_or_zero o.
Proof. by destruct o. Qed.

Lemma tally_null_as_zero s r :
  App.tally s (Spec.null_as_zero r) = App.tally s r.
Proof.
  destruct s as [stock cash]. unfold App.tally, Spec.null_as_zero.
  cbn [kind product unit_price qty value].
  rewrite !float_or_zero_default. by destruct (qty r).
Qed.

Lemma replay_null_as_zero l s :
  App.replay (map Spec.null_as_zero l) s = App.replay l s.
Proof.
  revert s. induction l as [|r l IH]; intros s; simpl; [done|].
  rewrite tally_null_as_zero. destruct (App.tally s r); simpl; [apply IH|done].
Qed.

Lemma order_by_id_map before (f : row -> row) t :
  (forall r, rowid (f r) = rowid r) ->
  Sql.order_by_id before (map f t) = map f (Sql.order_by_id before t).
Proof.
  intros Hf. induction t as [|r t IH]; simpl; [done|]. rewrite IH.
  generalize (Sql.order_by_id before t) as l.
  induction l as [|h l IHl]; simpl; [done|].
  rewrite !Hf. destruct (before (rowid r) (rowid h)); simpl; [done|].
  by rewrite IHl.
Qed.

(** Over any table of rows typed as the schema declares them, both
    projectors return a snapshot, never an exception, and a NULL quantity,
    unit price or value counts as zero: the snapshot is the one of the
    table with zero written in place of every NULL. *)
Theorem projection_total db :
  Forall typed db ->
  (exists s, App.calc_state db = Ok s /\
             App.calc_state (map Spec.null_as_zero db) = Ok s) /\
  (exists s, SystemAccountant.calc_state db = Ok s /\
             SystemAccountant.calc_state (map Spec.null_as_zero db) = Ok s).
Proof.
  intros H. split.
  - eexists. split; [by apply app_calc_state_typed|].
    rewrite <- (app_calc_state_typed db H). unfold App.calc_state.
    by rewrite order_by_id_map, replay_null_as_zero.
  - eexists. split; [by apply sa_calc_state_typed|].
    rewrite <- (sa_calc_state_typed db H). unfold SystemAccountant.calc_state.
    by rewrite order_by_id_map, !replay_same, replay_null_as_zero.
Qed.

Lemma projection_total_witness :
  (exists s, App.calc_state legacy = Ok s /\
             App.calc_state (map Spec.null_as_zero legacy) = Ok s) /\
  (exists s, SystemAccountant.calc_state legacy = Ok s /\
             SystemAccountant.calc_state (map Spec.null_as_zero legacy) = Ok s).
Proof.
  apply (projection_total legacy).
  repeat constructor; vm_compute; congruence.
Defined.

(** ** History *)

Lemma bind_int_typed z : Sql.int64 z -> Sql.bind_int z = Ok z.
Proof. intros H. unfold Sql.bind_int. by rewrite decide_True. Qed.

Lemma snapshot_page (o : outcome (stock_map * float)) rows scope :
  snapshot ('(stock, cash) ← o;
            Ok {| rows := rows; scope := scope; stock := stock; cash := cash |})
  = o.
Proof. by destruct o as [[stock cash]|e]. Qed.

(** C2: for every range whose bounds the store can bind, the snapshot of
    [history] with the range is the snapshot of [history] without it, and
    both are [calc_state] of the whole table. *)
Theorem history_snapshot_global db a b :
  Sql.int64 a -> Sql.int64 b ->
  (snapshot (App.history (Some a) (Some b) db)
   = snapshot (App.history None None db) /\
   snapshot (App.history None None db) = App.calc_state db) /\
  (snapshot (SystemAccountant.history (Some a) (Some b) db)
   = snapshot (SystemAccountant.history None None db) /\
   snapshot (SystemAccountant.history None None db)
   = SystemAccountant.calc_state db).
Proof.
  intros Ha Hb. unfold App.history, SystemAccountant.history.
  destruct (b <? a); simpl;
    rewrite !(bind_int_typed a), !(bind_int_typed b) by done; simpl;
    change (mbind ?f ?m) with (m ≫= f);
    by rewrite !snapshot_page.
Qed.

Lemma history_snapshot_global_witness :
  (snapshot (App.history (Some 2) (Some 3) scenario_c)
   = snapshot (App.history None None scenario_c) /\
   snapshot (App.history None None scenario_c) = App.calc_state scenario_c) /\
  (snapshot (SystemAccountant.history (Some 2) (Some 3) scenario_c)
   = snapshot (SystemAccountant.history None None scenario_c) /\
   snapshot (SystemAccountant.history None None scenario_c)
   = SystemAccountant.calc_state scenario_c).
Proof.
  apply (history_snapshot_global scenario_c 2 3); vm_compute; split; congruence.
Defined.

(** ** Submission *)

Lemma eq_str_false k s : k <> Some s -> eq_str k s = false.
Proof.
  destruct k as [k|]; simpl; [|done].
  intros H. apply String.eqb_neq. congruence.
Qed.

(** C10: when the field form_name is missing or is none of buy, sell and
    balance, [add_event] writes no row, flashes no message and redirects to
    the index; the state computed afterwards is the one before. *)
Theorem unknown_kind_noop form now db :
  get form "form_name" <> Some "buy" ->
  get form "form_name" <> Some "sell" ->
  get form "form_name" <> Some "balance" ->
  SystemAccountant.add_event form now db
  = Ok {| table := db; flashed := []; location := "index" |} /\
  SystemAccountant.calc_state
    (table_after db (SystemAccountant.add_event form now db))
  = SystemAccountant.calc_state db.
Proof.
  intros H1 H2 H3.
  assert (E : SystemAccountant.add_event form now db
              = Ok {| table := db; flashed := []; location := "index" |}).
  { unfold SystemAccountant.add_event.
    by rewrite !eq_str_false. }
  by rewrite E.
Qed.

Lemma unknown_kind_noop_witness :
  SystemAccountant.add_event {[ "form_name" := "cash"; "value" := "5" ]}
    "2024-01-02T08:00:00" scenario_c
  = Ok {| table := scenario_c; flashed := []; location := "index" |} /\
  SystemAccountant.calc_state
    (table_after scenario_c
       (SystemAccountant.add_event {[ "form_name" := "cash"; "value" := "5" ]}
          "2024-01-02T08:00:00" scenario_c))
  = SystemAccountant.calc_state scenario_c.
Proof.
  apply (unknown_kind_noop {[ "form_name" := "cash"; "value" := "5" ]});
    vm_compute; congruence.
Defined.

(** ** The order of the rows of a history *)

(** C5, as stated, fails on app.py: its history of the two rows of
    scenario B comes back with id 2 before id 1. *)
Lemma history_ascending_counterexample :
  exists p, App.history None None scenario_b = Ok p /\ ~ Spec.ascending (rows p).
Proof.
  eexists. split; [vm_compute; reflexivity|].
  simpl. intros H. apply StronglySorted_inv in H as [_ H].
  apply Forall_cons in H as [H _]. simpl in H. lia.
Qed.

(** C5, amended: with or without a range, the rows [history] returns are
    sorted by id, ascending in system_accountant.py and descending (the
    newest first) in app.py. *)
Theorem history_rows_sorted db line_from line_to :
  Forall typed db ->
  (forall a, line_from = Some a -> Sql.int64 a) ->
  (forall b, line_to = Some b -> Sql.int64 b) ->
  (exists p, SystemAccountant.history line_from line_to db = Ok p /\
             Spec.ascending (rows p)) /\
  (exists p, App.history line_from line_to db = Ok p /\
             Spec.descending (rows p)).
Proof.
  intros H Ha Hb.
  unfold SystemAccountant.history, App.history.
  rewrite app_calc_state_typed, sa_calc_state_typed by done.
  destruct line_from as [a|], line_to as [b|]; simpl;
    try (split; eexists; (split; [reflexivity|]); simpl;
         [apply order_asc_ascending | apply order_desc_descending]).
  specialize (Ha a eq_refl). specialize (Hb b eq_refl).
  destruct (b <? a); simpl;
    rewrite !(bind_int_typed a), !(bind_int_typed b) by done; simpl;
    split; eexists; (split; [reflexivity|]); simpl;
    (apply order_asc_ascending || apply order_desc_descending).
Qed.

Lemma history_rows_sorted_witness :
  (exists p, SystemAccountant.history (Some 1) (Some 2) scenario_c = Ok p /\
             Spec.ascending (rows p)) /\
  (exists p, App.history (Some 1) (Some 2) scenario_c = Ok p /\
             Spec.descending (rows p)).
Proof.
  apply (history_rows_sorted scenario_c (Some 1) (Some 2)).
  - repeat constructor; vm_compute; congruence.
  - intros a [= <-]. vm_compute. split; congruence.
  - intros b [= <-]. vm_compute. split; congruence.
Defined.

(** ** The bounds of a range, in either order *)

(** app.py swaps bounds given in reverse: the two orders give one page. *)
Lemma app_history_symmetric db a b :
  App.history (Some a) (Some b) db = App.history (Some b) (Some a) db.
Proof.
  unfold App.history.
  destruct (Z.ltb_spec b a), (Z.ltb_spec a b); try reflexivity; try lia.
  by replace b with a by lia.
Qed.

(** C4 at a failing input: on the three rows of scenario C,
    system_accountant.py answers the range (2, 1) with no row at all, and
    the range (1, 2) with the rows 1 and 2. *)
Theorem sa_history_reversed_bounds :
  exists p q,
    SystemAccountant.history (Some 2) (Some 1) scenario_c = Ok p /\
    SystemAccountant.history (Some 1) (Some 2) scenario_c = Ok q /\
    rows p = [] /\ map rowid (rows q) = [1; 2].
Proof.
  eexists _, _. split; [vm_compute; reflexivity|].
  split; [vm_compute; reflexivity|]. split; reflexivity.
Qed.

(** ** Validation of a submitted buy or sell *)

Lemma missing_parsed_float s x :
  Py.float_of_str s = Ok x -> missing (Some s) = false.
Proof.
  intros H. simpl. apply String.eqb_neq. intros ->. discriminate.
Qed.

Lemma missing_parsed_int s z : Py.int s = Ok z -> missing (Some s) = false.
Proof.
  intros H. simpl. apply String.eqb_neq. intros ->. discriminate.
Qed.

(** app.py: a buy or a sell whose price and quantity parse is turned down,
    the table left as it was, exactly when the product is empty, the
    quantity is not positive or the price is negative. *)
Lemma app_trade_rejected_iff mk done form now db ps qs price q :
  get form "unit_price" = Some ps -> Py.float_of_str ps = Ok price ->
  get form "qty" = Some qs -> Py.int qs = Ok q ->
  rejected (App.trade mk done form now db) /\
  table_after db (App.trade mk done form now db) = db
  <-> Py.strip (get_or_empty form "product") = ""
      \/ q <= 0 \/ (price <? 0)%float = true.
Proof.
  intros Ep Hp Eq Hq. unfold App.trade.
  rewrite Ep, Eq, (missing_parsed_float _ _ Hp), (missing_parsed_int _ _ Hq).
  simpl. rewrite Hp, Hq. simpl.
  destruct (String.eqb_spec (Py.strip (get_or_empty form "product")) "") as [E|E];
    simpl.
  { split; [by left|]. intros _. split; [|done]. by eexists. }
  destruct (Z.leb_spec q 0) as [Hle|Hgt]; simpl.
  { split; [by right; left|]. intros _. split; [|done]. by eexists. }
  destruct (price <? 0)%float eqn:Hneg; simpl.
  { split; [by right; right|]. intros _. split; [|done]. by eexists. }
  split.
  - intros [Hrej _]. exfalso.
    destruct (Sql.insert now _ db); simpl in Hrej; [|done].
    destruct Hrej as (msg & [=] & _).
  - intros [?|[?|?]]; [done|lia|done].
Qed.

Lemma app_buy_rejected_iff_witness :
  rejected (App.buy {[ "product" := "Widget"; "unit_price" := "-1";
                       "qty" := "5" ]} "2024-01-02T08:00:00" scenario_c) /\
  table_after scenario_c
    (App.buy {[ "product" := "Widget"; "unit_price" := "-1"; "qty" := "5" ]}
       "2024-01-02T08:00:00" scenario_c) = scenario_c
  <-> Py.strip (get_or_empty {[ "product" := "Widget"; "unit_price" := "-1";
                                "qty" := "5" ]} "product") = ""
      \/ 5 <= 0 \/ (-1 <? 0)%float = true.
Proof.
  apply (app_trade_rejected_iff Buy "Zakup zapisany."
           {[ "product" := "Widget"; "unit_price" := "-1"; "qty" := "5" ]}
           "2024-01-02T08:00:00" scenario_c "-1" "5" (-1)%float 5);
    reflexivity.
Defined.

(** C3 at a failing input: system_accountant.py takes a buy of 5 Widget
    at the unit price -1: no message of error, the row is written with its
    negative price, and the purchase adds 5 to the cash. *)
Theorem sa_negative_price_stored :
  let form : gmap string string :=
    {[ "form_name" := "buy"; "buy_name" := "Widget";
       "buy_price" := "-1"; "buy_qty" := "5" ]} in
  let o := SystemAccountant.add_event form "2024-01-02T08:00:00" [] in
  ~ rejected o /\
  map unit_price (table_after [] o) = [Some (-1)%float] /\
  SystemAccountant.calc_state (table_after [] o)
  = Ok ({[ Some "Widget" := 5 ]}, 5%float).
Proof.
  split; [|split; vm_compute; reflexivity].
  vm_compute. intros (msg & [=] & _).
Qed.

(** ** Fields that are not numbers *)

(** app.py: a buy or a sell whose price or quantity does not parse is
    turned down with a message, and nothing is written. *)
Lemma app_trade_non_numeric mk done form now db :
  Py.float_of_str (default "" (get form "unit_price")) = Raise ValueError \/
  Py.int (default "" (get form "qty")) = Raise ValueError ->
  rejected (App.trade mk done form now db) /\
  table_after db (App.trade mk done form now db) = db.
Proof.
  intros H. unfold App.trade.
  destruct (_ || _ || _); simpl; [split; [by eexists|done]|].
  destruct (Py.float_of_str _) as [price|e] eqn:Ep; simpl.
  - destruct H as [H|H]; [done|]. rewrite H. simpl.
    split; [by eexists|done].
  - destruct H as [[= ->]|H].
    + split; [by eexists|done].
    + destruct e; simpl; [split; [by eexists|done]|].
      exfalso. revert Ep. unfold Py.float_of_str, Py.numeral.
      repeat case_match; discriminate.
Qed.

(** app.py: a balance whose value does not parse, likewise. *)
Lemma app_balance_non_numeric form now db :
  Py.float_of_str (default "" (get form "value")) = Raise ValueError ->
  rejected (App.balance form now db) /\
  table_after db (App.balance form now db) = db.
Proof.
  intros H. unfold App.balance.
  destruct (missing _); simpl; [split; [by eexists|done]|].
  rewrite H. split; [by eexists|done].
Qed.

(** system_accountant.py, kind balance: a value that does not parse is
    turned down with a message, and nothing is written. *)
Lemma sa_balance_non_numeric form now db :
  get form "form_name" = Some "balance" ->
  Py.float_of_str (get_or form "bal_value" "0") = Raise ValueError ->
  rejected (SystemAccountant.add_event form now db) /\
  table_after db (SystemAccountant.add_event form now db) = db.
Proof.
  intros Hk H. unfold SystemAccountant.add_event.
  rewrite Hk, H. simpl. split; [by eexists|done].
Qed.

(** C6 at a failing input: in system_accountant.py a buy whose price is
    the string abc ends in the ValueError of [float], not caught: no
    message is flashed and there is no redirect (nothing is written). *)
Theorem sa_non_numeric_price_raises :
  let form : gmap string string :=
    {[ "form_name" := "buy"; "buy_name" := "Widget";
       "buy_price" := "abc"; "buy_qty" := "5" ]} in
  let o := SystemAccountant.add_event form "2024-01-02T08:00:00" scenario_c in
  Py.float_of_str "abc" = Raise ValueError /\
  o = Raise ValueError /\ ~ rejected o /\ table_after scenario_c o = scenario_c.
Proof.
  repeat split; try (vm_compute; reflexivity).
  vm_compute. tauto.
Qed.

(** ** Rounding of the cash *)

Lemma float_neq (x y : float) : Prim2SF x <> Prim2SF y -> x <> y.
Proof. intros H E. apply H. by rewrite E. Qed.

(** C8, as stated, fails on app.py: over one adjustment of 0.125 its
    projector returns 0.12, not the sum accumulated, 0.125. *)
Lemma unrounded_cash_counterexample :
  exists stock c,
    App.calc_state eighth = Ok (stock, c) /\
    c = 0x1.eb851eb851eb8p-4%float /\
    Spec.accumulated (Sql.order_by_id Sql.asc eighth) = 0.125%float /\
    c <> Spec.accumulated (Sql.order_by_id Sql.asc eighth).
Proof.
  eexists _, _. split; [vm_compute; reflexivity|].
  split; [reflexivity|]. split; [vm_compute; reflexivity|].
  apply float_neq. vm_compute. discriminate.
Qed.

(** C8, amended: both projectors accumulate the cash at full precision
    over the rows in ascending order of id; system_accountant.py returns
    that sum as it is, and app.py returns it rounded to two decimals by
    [round(cash, 2)]. *)
Theorem cash_returned db :
  Forall typed db ->
  (exists stock,
     SystemAccountant.calc_state db
     = Ok (stock, Spec.accumulated (Sql.order_by_id Sql.asc db))) /\
  (exists stock,
     App.calc_state db
     = Ok (stock, Py.round2 (Spec.accumulated (Sql.order_by_id Sql.asc db)))).
Proof.
  intros H. split; eexists.
  - by apply sa_calc_state_typed.
  - by apply app_calc_state_typed.
Qed.

Lemma cash_returned_witness :
  (exists stock,
     SystemAccountant.calc_state eighth
     = Ok (stock, Spec.accumulated (Sql.order_by_id Sql.asc eighth))) /\
  (exists stock,
     App.calc_state eighth
     = Ok (stock, Py.round2 (Spec.accumulated (Sql.order_by_id Sql.asc eighth)))).
Proof.
  apply (cash_returned eighth).
  repeat constructor; vm_compute; congruence.
Defined.

(** ** Floats that stand for the same number *)

Lemma is_zero_spec x : is_zero x = true <-> exists s, Prim2SF x = S754_zero s.
Proof.
  unfold is_zero. rewrite FloatAxioms.eqb_spec.
  change (Prim2SF zero) with (S754_zero false).
  destruct (Prim2SF x) as [s|s| |s m e]; simpl; split;
    try done; try (intros [? [=]]); eauto.
  all: by destruct s.
Qed.

Lemma same_number_refl x : Spec.same_number x x.
Proof. by left. Qed.

Ltac both_zero :=
  right; split; apply is_zero_spec.

Ltac by_spec lem :=
  apply Prim2SF_inj; rewrite !lem.

Lemma same_number_mul x x' y :
  Spec.same_number x x' -> Spec.same_number (x * y) (x' * y).
Proof.
  intros [->|[Hx Hx']]; [by left|].
  apply is_zero_spec in Hx as [s Hs], Hx' as [s' Hs'].
  destruct (Prim2SF y) as [sy|sy| |sy my ey] eqn:Hy.
  2, 3: left; by_spec mul_spec; unfold SF64mul; by rewrite Hs, Hs', Hy.
  all: both_zero; rewrite mul_spec; unfold SF64mul;
    rewrite ?Hs, ?Hs', Hy; simpl; eauto.
Qed.

Lemma same_number_add c c' t t' :
  Spec.same_number c c' -> Spec.same_number t t' ->
  Spec.same_number (c + t) (c' + t').
Proof.
  intros [->|[Hc Hc']] [->|[Ht Ht']]; [by left|..].
  - apply is_zero_spec in Ht as [s Hs], Ht' as [s' Hs'].
    destruct (Prim2SF c') as [sc|sc| |sc mc ec] eqn:Hc.
    2, 3, 4: left; by_spec add_spec; unfold SF64add; by rewrite Hs, Hs', Hc.
    both_zero; rewrite add_spec; unfold SF64add; rewrite ?Hs, ?Hs', Hc;
      simpl; repeat case_match; eauto.
  - apply is_zero_spec in Hc as [s Hs], Hc' as [s' Hs'].
    destruct (Prim2SF t') as [st|st| |st mt et] eqn:Ht.
    2, 3, 4: left; by_spec add_spec; unfold SF64add; by rewrite Hs, Hs', Ht.
    both_zero; rewrite add_spec; unfold SF64add; rewrite ?Hs, ?Hs', Ht;
      simpl; repeat case_match; eauto.
  - apply is_zero_spec in Hc as [s Hs], Hc' as [s' Hs'].
    apply is_zero_spec in Ht as [u Hu], Ht' as [u' Hu'].
    both_zero; rewrite add_spec; unfold SF64add; rewrite ?Hs, ?Hs', ?Hu, ?Hu';
      simpl; repeat case_match; eauto.
Qed.

Lemma same_number_sub c c' t t' :
  Spec.same_number c c' -> Spec.same_number t t' ->
  Spec.same_number (c - t) (c' - t').
Proof.
  intros [->|[Hc Hc']] [->|[Ht Ht']]; [by left|..].
  - apply is_zero_spec in Ht as [s Hs], Ht' as [s' Hs'].
    destruct (Prim2SF c') as [sc|sc| |sc mc ec] eqn:Hc.
    2, 3, 4: left; by_spec sub_spec; unfold SF64sub; by rewrite Hs, Hs', Hc.
    both_zero; rewrite sub_spec; unfold SF64sub; rewrite ?Hs, ?Hs', Hc;
      simpl; repeat case_match; eauto.
  - apply is_zero_spec in Hc as [s Hs], Hc' as [s' Hs'].
    destruct (Prim2SF t') as [st|st| |st mt et] eqn:Ht.
    2, 3, 4: left; by_spec sub_spec; unfold SF64sub; by rewrite Hs, Hs', Ht.
    both_zero; rewrite sub_spec; unfold SF64sub; rewrite ?Hs, ?Hs', Ht;
      simpl; repeat case_match; eauto.
  - apply is_zero_spec in Hc as [s Hs], Hc' as [s' Hs'].
    apply is_zero_spec in Ht as [u Hu], Ht' as [u' Hu'].
    both_zero; rewrite sub_spec; unfold SF64sub; rewrite ?Hs, ?Hs', ?Hu, ?Hu';
      simpl; repeat case_match; eauto.
Qed.

Lemma same_number_round2 x y :
  Spec.same_number x y -> Spec.same_number (Py.round2 x) (Py.round2 y).
Proof.
  intros [->|[Hx Hy]]; [by left|]. right.
  pose proof Hx as Hx'. pose proof Hy as Hy'.
  apply is_zero_spec in Hx' as [s Hs], Hy' as [s' Hs'].
  unfold Py.round2. by rewrite Hs, Hs'.
Qed.

(** What the table gives back for a REAL it was given, read with
    [or 0.0], is the same number, when the REAL was not NaN. *)
Lemma same_number_stored x :
  is_nan x = false ->
  Spec.same_number (float_or_zero (Sql.bind_real x)) x.
Proof.
  intros H. unfold Sql.bind_real. rewrite H.
  destruct (is_zero x) eqn:E.
  - change (float_or_zero (Some 0%float)) with 0%float.
    right. split; [reflexivity|exact E].
  - left. unfold float_or_zero, Py.truthy.
    change (x =? 0)%float with (is_zero x). by rewrite E.
Qed.

(** ** The projection is the fold of the specification *)

Lemma new_row_storable i now e :
  storable e ->
  exists r, Sql.new_row i now e = Ok r /\ rowid r = i /\ typed r /\
    forall s s0 : stock_map * float,
      s.1 = s0.1 -> Spec.same_number s.2 s0.2 ->
      (tallied s r).1 = (Spec.apply s0 e).1 /\
      Spec.same_number (tallied s r).2 (Spec.apply s0 e).2.
Proof.
  destruct e as [name price q|name price q|note val]; simpl.
  - intros [Hq Hp]. rewrite bind_int_typed by done. simpl.
    eexists. split; [reflexivity|]. split; [done|]. split; [done|].
    intros [stock c] [stock0 c0]; simpl. intros -> Hc. split; [done|].
    unfold Spec.pay; simpl.
    apply same_number_sub; [done|]. by apply same_number_mul, same_number_stored.
  - intros [Hq Hp]. rewrite bind_int_typed by done. simpl.
    eexists. split; [reflexivity|]. split; [done|]. split; [done|].
    intros [stock c] [stock0 c0]; simpl. intros -> Hc. split; [done|].
    unfold Spec.pay; simpl.
    apply same_number_add; [done|]. by apply same_number_mul, same_number_stored.
  - intros Hv.
    eexists. split; [reflexivity|]. split; [done|].
    split; [by vm_compute|].
    intros [stock c] [stock0 c0]; simpl. intros -> Hc. split; [done|].
    unfold Spec.pay; simpl.
    apply same_number_add; [done|]. by apply same_number_stored.
Qed.

Lemma last_id_bound db : Forall (fun x => rowid x <= Sql.last_id db) db.
Proof.
  induction db as [|r db IH]; simpl; constructor; [lia|].
  eapply Forall_impl; [exact IH|]. simpl. lia.
Qed.

Lemma ascending_snoc db r :
  Spec.ascending db -> Forall (fun x => rowid x <= rowid r) db ->
  Spec.ascending (db ++ [r]).
Proof.
  unfold Spec.ascending. induction 1 as [|h db Hdb IH Hh]; simpl; intros Hr.
  - repeat constructor.
  - apply Forall_cons in Hr as [Hhr Hr]. constructor; [by apply IH|].
    apply Forall_app. split; [done|]. by constructor.
Qed.

Lemma append_projected events :
  forall (db : list row) (s0 : stock_map * float),
    Forall (fun ne => storable ne.2) events ->
    Spec.ascending db -> Forall typed db ->
    (fold_left tallied db (∅, 0%float)).1 = s0.1 ->
    Spec.same_number (fold_left tallied db (∅, 0%float)).2 s0.2 ->
    exists db',
      append events db = Ok db' /\ Spec.ascending db' /\ Forall typed db' /\
      (fold_left tallied db' (∅, 0%float)).1
      = (fold_left Spec.apply (map snd events) s0).1 /\
      Spec.same_number (fold_left tallied db' (∅, 0%float)).2
        (fold_left Spec.apply (map snd events) s0).2.
Proof.
  induction events as [|[now e] events IH]; intros db s0 Hev Hasc Hty Hst Hc.
  - exists db. by simpl.
  - apply Forall_cons in Hev as [He Hev]. simpl in He.
    destruct (new_row_storable (Sql.last_id db + 1) now e He)
      as (r & Hr & Hid & Htr & Hstep).
    simpl. unfold Sql.insert. rewrite Hr. simpl.
    destruct (Hstep _ _ Hst Hc) as [Hst' Hc'].
    apply IH; [done| | | |].
    + apply ascending_snoc; [done|]. rewrite Hid.
      eapply Forall_impl; [apply last_id_bound|]. simpl. lia.
    + apply Forall_app. split; [done|]. by constructor.
    + by rewrite fold_left_app.
    + by rewrite fold_left_app.
Qed.

(** C1: events the table keeps as they are, appended in turn to the empty
    table, get ascending ids, and [calc_state] over that table is the left
    fold of the specification over the events in that order, from empty
    stock and zero cash: the same stock once the products at zero are
    left out, and the same number for the cash (rounded to two decimals
    by app.py).  On the table of scenario A, the single event
    Buy(Widget, 10.0, 5), both return stock Widget: 5 and cash -50.0. *)
Theorem projection_is_fold events :
  Forall (fun ne : string * event => storable ne.2) events ->
  (exists db c c',
     append events [] = Ok db /\ Spec.ascending db /\
     SystemAccountant.calc_state db
     = Ok (Spec.elide (Spec.project (map snd events)).1, c) /\
     Spec.same_number c (Spec.project (map snd events)).2 /\
     App.calc_state db
     = Ok (Spec.elide (Spec.project (map snd events)).1, c') /\
     Spec.same_number c' (Py.round2 (Spec.project (map snd events)).2)) /\
  append [("2024-01-01T10:00:00", Buy "Widget" 10 5)] [] = Ok scenario_a /\
  SystemAccountant.calc_state scenario_a
  = Ok ({[ Some "Widget" := 5 ]}, (-50)%float) /\
  App.calc_state scenario_a = Ok ({[ Some "Widget" := 5 ]}, (-50)%float).
Proof.
  intros Hev. split; [|repeat split; vm_compute; reflexivity].
  destruct (append_projected events [] (∅, 0%float) Hev)
    as (db & Hdb & Hasc & Hty & Hst & Hc);
    [constructor|constructor|done|apply same_number_refl|].
  exists db. eexists _, _. split; [done|]. split; [done|].
  rewrite sa_calc_state_typed, app_calc_state_typed by done.
  rewrite (order_asc_same db Hasc). unfold Spec.accumulated.
  rewrite <- (fold_tallied_cash db (∅, 0%float)).
  unfold Spec.project. rewrite Hst.
  split; [reflexivity|]. split; [done|]. split; [reflexivity|].
  by apply same_number_round2.
Qed.

Lemma projection_is_fold_witness :
  (exists db c c',
     append [("2024-01-01T10:00:00", Buy "Widget" 10 5);
             ("2024-01-01T10:05:00", Sell "Widget" 12 5);
             ("2024-01-01T10:10:00", Balance "fee" (-3.5))] [] = Ok db /\
     Spec.ascending db /\
     SystemAccountant.calc_state db
     = Ok (Spec.elide (Spec.project
             [Buy "Widget" 10 5; Sell "Widget" 12 5; Balance "fee" (-3.5)]).1, c) /\
     Spec.same_number c (Spec.project
             [Buy "Widget" 10 5; Sell "Widget" 12 5; Balance "fee" (-3.5)]).2 /\
     App.calc_state db
     = Ok (Spec.elide (Spec.project
             [Buy "Widget" 10 5; Sell "Widget" 12 5; Balance "fee" (-3.5)]).1, c') /\
     Spec.same_number c' (Py.round2 (Spec.project
             [Buy "Widget" 10 5; Sell "Widget" 12 5; Balance "fee" (-3.5)]).2)) /\
  append [("2024-01-01T10:00:00", Buy "Widget" 10 5)] [] = Ok scenario_a /\
  SystemAccountant.calc_state scenario_a
  = Ok ({[ Some "Widget" := 5 ]}, (-50)%float) /\
  App.calc_state scenario_a = Ok ({[ Some "Widget" := 5 ]}, (-50)%float).
Proof.
  apply (projection_is_fold
           [("2024-01-01T10:00:00", Buy "Widget" 10 5);
            ("2024-01-01T10:05:00", Sell "Widget" 12 5);
            ("2024-01-01T10:10:00", Balance "fee" (-3.5))]).
  repeat constructor; vm_compute; congruence.
Defined.

(** * Further properties of the routes *)

Local Open Scope list_scope.

(** ** What a POST does to the table *)

Lemma grown_refl db : grown db db.
Proof. by left. Qed.

Lemma insert_grown now e db :
  match Sql.insert now e db with
  | Ok db' => exists r, db' = db ++ [r] /\ rowid r = Sql.last_id db + 1
  | Raise ex => ex = OverflowError
  end.
Proof.
  unfold Sql.insert, Sql.new_row, Sql.bind_int.
  destruct e; simpl; repeat case_match; simplify_eq/=; eauto.
Qed.

Lemma insert_table_grown now e db (k : list row -> reply) :
  (forall db', table (k db') = db') ->
  grown db (table_after db (db' ← Sql.insert now e db; Ok (k db'))).
Proof.
  intros Hk. pose proof (insert_grown now e db) as H.
  destruct (Sql.insert now e db) as [db'|ex]; simpl; [|by left].
  rewrite Hk. by right.
Qed.

Lemma app_trade_grown mk done form now db :
  grown db (table_after db (App.trade mk done form now db)).
Proof.
  unfold App.trade.
  destruct (_ || _ || _); [by left|].
  destruct (_ ≫= _) as [[price q]|[]]; [|by left..].
  by apply (insert_table_grown _ _ _
              (fun db' => {| table := db'; flashed := _; location := _ |})).
Qed.

Lemma app_balance_grown form now db :
  grown db (table_after db (App.balance form now db)).
Proof.
  unfold App.balance.
  destruct (missing _); [by left|].
  destruct (Py.float_of_str _) as [val|[]]; [|by left..].
  by apply (insert_table_grown _ _ _
              (fun db' => {| table := db'; flashed := _; location := _ |})).
Qed.

Lemma sa_trade_grown mk pre done form now db :
  match SystemAccountant.trade mk pre done form now db with
  | Ok (db', _) => grown db db'
  | Raise _ => True
  end.
Proof.
  unfold SystemAccountant.trade.
  destruct (SystemAccountant.float_or_0 _) as [price|]; simpl; [|done].
  destruct (SystemAccountant.int_or_0 _) as [q|]; simpl; [|done].
  destruct (_ || _); [by left|].
  pose proof (insert_grown now (mk (Py.strip (get_or form (pre ++ "_name") "")) price q) db) as H.
  destruct (Sql.insert _ _ _); simpl; [by right|done].
Qed.

Lemma sa_add_event_grown form now db :
  grown db (table_after db (SystemAccountant.add_event form now db)).
Proof.
  unfold SystemAccountant.add_event.
  destruct (eq_str _ "buy");
    [|destruct (eq_str _ "sell"); [|destruct (eq_str _ "balance")]].
  - pose proof (sa_trade_grown Buy "buy" "Zakup zapisany." form now db) as Hg.
    destruct (SystemAccountant.trade _ _ _ _ _ _) as [[db' msgs]|];
      simpl; [done|by left].
  - pose proof (sa_trade_grown Sell "sell" "Sprzedaż zapisana." form now db)
      as Hg.
    destruct (SystemAccountant.trade _ _ _ _ _ _) as [[db' msgs]|];
      simpl; [done|by left].
  - destruct (Py.float_of_str _) as [v|[]]; simpl;
      [|apply grown_refl..].
    right. by eexists.
  - apply grown_refl.
Qed.

(** Every POST route of the two files leaves the rows it finds as they
    are: the table after the request is the table before, or the table
    before followed by one new row whose id is the largest id so far plus
    one.  An exception, a refusal and the three stubs leave the table
    unchanged. *)
Theorem post_only_appends db :
  (forall q, grown db (table_after db (app_post q db))) /\
  (forall q, grown db (table_after db (sa_post q db))).
Proof.
  split; intros q; destruct q; simpl.
  - apply app_trade_grown.
  - apply app_trade_grown.
  - apply app_balance_grown.
  - apply sa_add_event_grown.
  - apply grown_refl.
  - apply grown_refl.
  - apply grown_refl.
Qed.

(** ** The tables the routes can build *)

Lemma app_trade_inserts mk done form now db :
  (forall name price q, mk name price q = Buy name price q) \/
  (forall name price q, mk name price q = Sell name price q) ->
  table_after db (App.trade mk done form now db) = db \/
  exists e, admissible e /\ not_below_zero e /\
    Sql.insert now e db = Ok (table_after db (App.trade mk done form now db)).
Proof.
  intros Hmk. unfold App.trade.
  destruct (String.eqb_spec (Py.strip (get_or_empty form "product")) "")
    as [|Hname]; simpl; [by left|].
  destruct (_ || _); [by left|].
  destruct (Py.float_of_str _) as [price|[]]; simpl; [|by left..].
  destruct (Py.int _) as [q|[]]; simpl; [|by left..].
  destruct (Z.leb_spec q 0) as [|Hq]; simpl; [by left|].
  destruct (price <? 0)%float eqn:Hprice; simpl; [by left|].
  destruct (Sql.insert now _ db) as [db'|ex] eqn:Hins; simpl; [|by left].
  right. eexists. split; [|split; [|exact Hins]].
  - by destruct Hmk as [->| ->].
  - by destruct Hmk as [->| ->].
Qed.

Lemma app_post_inserts q db :
  table_after db (app_post q db) = db \/
  exists now e, admissible e /\ not_below_zero e /\
    Sql.insert now e db = Ok (table_after db (app_post q db)).
Proof.
  destruct q as [form now|form now|form now]; simpl.
  - destruct (app_trade_inserts Buy "Zakup zapisany." form now db)
      as [?|(e & ? & ? & ?)]; [by left|by left|right; eauto].
  - destruct (app_trade_inserts Sell "Sprzedaż zapisana." form now db)
      as [?|(e & ? & ? & ?)]; [by right|by left|right; eauto].
  - unfold App.balance.
    destruct (missing _); [by left|].
    destruct (Py.float_of_str _) as [val|[]]; [|by left..].
    right. by eexists now, (Balance _ val).
Qed.

Lemma sa_trade_inserts mk pre done form now db :
  (forall name price q, mk name price q = Buy name price q) \/
  (forall name price q, mk name price q = Sell name price q) ->
  match SystemAccountant.trade mk pre done form now db with
  | Ok (db', _) =>
      db' = db \/ exists e, admissible e /\ Sql.insert now e db = Ok db'
  | Raise _ => True
  end.
Proof.
  intros Hmk. unfold SystemAccountant.trade.
  destruct (SystemAccountant.float_or_0 _) as [price|]; simpl; [|done].
  destruct (SystemAccountant.int_or_0 _) as [q|]; simpl; [|done].
  destruct (String.eqb_spec (Py.strip (get_or form (pre ++ "_name") "")) "")
    as [|Hname]; simpl; [by left|].
  destruct (Z.leb_spec q 0) as [|Hq]; simpl; [by left|].
  destruct (Sql.insert now _ db) as [db'|ex] eqn:Hins; simpl; [|done].
  right. eexists. split; [|exact Hins].
  by destruct Hmk as [->| ->].
Qed.

Lemma sa_post_inserts q db :
  table_after db (sa_post q db) = db \/
  exists now e, admissible e /\
    Sql.insert now e db = Ok (table_after db (sa_post q db)).
Proof.
  destruct q as [form now| | |]; simpl; [|by left..].
  unfold SystemAccountant.add_event.
  destruct (eq_str _ "buy");
    [|destruct (eq_str _ "sell"); [|destruct (eq_str _ "balance")]].
  - pose proof (sa_trade_inserts Buy "buy" "Zakup zapisany." form now db) as Hi.
    destruct (SystemAccountant.trade _ _ _ _ _ _) as [[db' msgs]|];
      simpl; [|by left].
    destruct Hi as [?|(e & ? & ?)]; [by left|by left|right; eauto].
  - pose proof (sa_trade_inserts Sell "sell" "Sprzedaż zapisana." form now db)
      as Hi.
    destruct (SystemAccountant.trade _ _ _ _ _ _) as [[db' msgs]|];
      simpl; [|by left].
    destruct Hi as [?|(e & ? & ?)]; [by right|by left|right; eauto].
  - destruct (Py.float_of_str _) as [v|[]]; simpl; [|by left..].
    right. by eexists now, (Balance _ v).
  - by left.
Qed.

Lemma bind_real_priced price p :
  (price <? 0)%float = false -> Sql.bind_real price = Some p ->
  (p <? 0)%float = false.
Proof.
  intros Hp. unfold Sql.bind_real.
  destruct (is_nan price); [done|].
  destruct (is_zero price); intros [= <-]; [reflexivity|done].
Qed.

Lemma insert_sound now e db db' :
  Sql.insert now e db = Ok db' -> admissible e ->
  exists r, db' = db ++ [r] /\ rowid r = Sql.last_id db + 1 /\ sound r /\
            (not_below_zero e -> priced r).
Proof.
  unfold Sql.insert, Sql.new_row, Sql.bind_int.
  destruct e as [name price q|name price q|note val]; simpl.
  - destruct (decide (Sql.int64 q)) as [[_ Hq]|]; simpl; [|done].
    intros [= <-] [Hname Hpos]. eexists. split; [done|]. split; [done|]. split.
    + left. simpl. split; [by left|]. split; [|done]. by exists name, q.
    + intros Hp p. simpl. by apply bind_real_priced.
  - destruct (decide (Sql.int64 q)) as [[_ Hq]|]; simpl; [|done].
    intros [= <-] [Hname Hpos]. eexists. split; [done|]. split; [done|]. split.
    + left. simpl. split; [by right|]. split; [|done]. by exists name, q.
    + intros Hp p. simpl. by apply bind_real_priced.
  - intros [= <-] _. eexists. split; [done|]. split; [done|]. split.
    + right. simpl. repeat split; eauto.
    + by intros _ p.
Qed.

Lemma last_id_seq db : forall k n,
  map rowid db = map Z.of_nat (seq k n) ->
  Sql.last_id db = if decide (n = 0%nat) then 0 else Z.of_nat (k + n) - 1.
Proof.
  induction db as [|r db IH]; intros k [|n]; simpl; try done.
  intros [= Hr Hdb]. rewrite (IH _ _ Hdb), Hr.
  destruct (decide (n = 0%nat)); lia.
Qed.

Lemma ids_grown db db' :
  map rowid db = ids_to (length db) -> grown db db' ->
  map rowid db' = ids_to (length db').
Proof.
  intros Hdb [->|(r & -> & Hr)]; [done|].
  rewrite map_app, length_app, Hdb. simpl. unfold ids_to.
  rewrite Nat.add_1_r, seq_S, map_app. simpl. f_equal. f_equal.
  rewrite Hr, (last_id_seq db 1 (length db) Hdb).
  destruct (decide (length db = 0%nat)); lia.
Qed.

Lemma typed_sound r : sound r -> typed r.
Proof.
  unfold typed, Sql.int64.
  intros [(_ & (name & q & _ & _ & -> & Hq) & _)|(_ & _ & _ & -> & _)];
    simpl; lia.
Qed.

Lemma app_serve_invariant qs : forall db,
  map rowid db = ids_to (length db) -> Forall sound db -> Forall priced db ->
  map rowid (app_serve qs db) = ids_to (length (app_serve qs db)) /\
  Forall sound (app_serve qs db) /\ Forall priced (app_serve qs db).
Proof.
  induction qs as [|q qs IH]; intros db Hids Hs Hp; simpl; [done|].
  destruct (app_post_inserts q db) as [->|(now & e & Ha & Hn & Hins)];
    [by apply IH|].
  destruct (insert_sound _ _ _ _ Hins Ha) as (r & Hdb' & Hr & Hsr & Hpr).
  apply IH.
  - apply (ids_grown db); [done|]. right. eauto.
  - rewrite Hdb'. apply Forall_app. split; [done|]. by constructor.
  - rewrite Hdb'. apply Forall_app. split; [done|]. constructor; auto.
Qed.

Lemma sa_serve_invariant qs : forall db,
  map rowid db = ids_to (length db) -> Forall sound db ->
  map rowid (sa_serve qs db) = ids_to (length (sa_serve qs db)) /\
  Forall sound (sa_serve qs db).
Proof.
  induction qs as [|q qs IH]; intros db Hids Hs; simpl; [done|].
  destruct (sa_post_inserts q db) as [->|(now & e & Ha & Hins)];
    [by apply IH|].
  destruct (insert_sound _ _ _ _ Hins Ha) as (r & Hdb' & Hr & Hsr & _).
  apply IH.
  - apply (ids_grown db); [done|]. right. eauto.
  - rewrite Hdb'. apply Forall_app. split; [done|]. by constructor.
Qed.

(** Whatever POST requests either file serves from the empty table, the
    ids of the table are 1, 2, ..., n in the order of insertion: no id is
    used twice, none is skipped, and the rows stand in ascending order of
    id. *)
Theorem served_ids :
  (forall qs, map rowid (app_serve qs []) = ids_to (length (app_serve qs []))) /\
  (forall qs, map rowid (sa_serve qs []) = ids_to (length (sa_serve qs []))).
Proof.
  split; intros qs.
  - by apply app_serve_invariant.
  - by apply sa_serve_invariant.
Qed.

(** Whatever POST requests either file serves from the empty table, every
    row of the table is a buy or a sell of a named product in a positive
    quantity of 64 bits, or a balance adjustment (in app.py, moreover, no
    stored unit price is below zero), and [calc_state] over the table
    returns a snapshot: it raises nothing. *)
Theorem served_rows_sound :
  (forall qs, Forall sound (app_serve qs []) /\
              Forall priced (app_serve qs []) /\
              exists s, App.calc_state (app_serve qs []) = Ok s) /\
  (forall qs, Forall sound (sa_serve qs []) /\
              exists s, SystemAccountant.calc_state (sa_serve qs []) = Ok s).
Proof.
  split; intros qs.
  - destruct (app_serve_invariant qs []) as (_ & Hs & Hp); [done..|].
    split; [done|]. split; [done|]. eexists. apply app_calc_state_typed.
    eapply Forall_impl; [exact Hs|]. apply typed_sound.
  - destruct (sa_serve_invariant qs []) as (_ & Hs); [done..|].
    split; [done|]. eexists. apply sa_calc_state_typed.
    eapply Forall_impl; [exact Hs|]. apply typed_sound.
Qed.

(** ** One order for a table of distinct ids *)

Lemma same_id_same_row (l : list row) x y :
  NoDup (map rowid l) -> x ∈ l -> y ∈ l -> rowid x = rowid y -> x = y.
Proof.
  induction l as [|h l IH]; simpl; [by intros _ ?%elem_of_nil|].
  intros [Hh Hl]%NoDup_cons [->|Hx]%elem_of_cons [->|Hy]%elem_of_cons E; auto.
  - destruct Hh. rewrite E. by apply (list_elem_of_fmap_2 rowid).
  - destruct Hh. rewrite <- E. by apply (list_elem_of_fmap_2 rowid).
Qed.

Lemma sorted_unique before l1 : forall l2,
  (forall i j, before i j = true -> before j i = true -> i = j) ->
  StronglySorted (Sql.precedes before) l1 ->
  StronglySorted (Sql.precedes before) l2 ->
  l1 ≡ₚ l2 -> NoDup (map rowid l1) -> l1 = l2.
Proof.
  induction l1 as [|x l1 IH]; intros l2 Hanti H1 H2 Hp Hnd.
  - by apply Permutation_nil_l in Hp.
  - destruct l2 as [|y l2]; [by apply Permutation_nil_r in Hp|].
    apply StronglySorted_cons in H1 as [Hx H1], H2 as [Hy H2].
    assert (x = y) as <-.
    { assert (Hxin : x ∈ y :: l2) by (rewrite <- Hp; left).
      assert (Hyin : y ∈ x :: l1) by (rewrite Hp; left).
      apply elem_of_cons in Hxin as [|Hxin]; [done|].
      apply elem_of_cons in Hyin as [|Hyin]; [done|].
      apply (same_id_same_row (x :: l1)); [done|left|by right|].
      apply Hanti.
      - by apply (proj1 (Forall_forall _ _) Hx).
      - by apply (proj1 (Forall_forall _ _) Hy). }
    f_equal. apply IH; [done..| |].
    + by apply Permutation_cons_inv in Hp.
    + by apply NoDup_cons in Hnd as [_ ?].
Qed.

Lemma asc_total i j : Sql.asc i j = false -> Sql.asc j i = true.
Proof. unfold Sql.asc. rewrite Z.leb_gt, Z.leb_le. lia. Qed.

Lemma asc_trans i j k :
  Sql.asc i j = true -> Sql.asc j k = true -> Sql.asc i k = true.
Proof. unfold Sql.asc. rewrite !Z.leb_le. lia. Qed.

Lemma asc_antisym i j : Sql.asc i j = true -> Sql.asc j i = true -> i = j.
Proof. unfold Sql.asc. rewrite !Z.leb_le. lia. Qed.

Lemma desc_asc i j : Sql.desc i j = Sql.asc j i.
Proof. unfold Sql.desc, Sql.asc. apply Z.geb_leb. Qed.

Lemma desc_total i j : Sql.desc i j = false -> Sql.desc j i = true.
Proof. rewrite !desc_asc. apply asc_total. Qed.

Lemma desc_trans i j k :
  Sql.desc i j = true -> Sql.desc j k = true -> Sql.desc i k = true.
Proof. rewrite !desc_asc. eauto using asc_trans. Qed.

Lemma desc_antisym i j : Sql.desc i j = true -> Sql.desc j i = true -> i = j.
Proof. rewrite !desc_asc. eauto using asc_antisym. Qed.

Lemma order_asc_perm db1 db2 :
  db1 ≡ₚ db2 -> NoDup (map rowid db1) ->
  Sql.order_by_id Sql.asc db1 = Sql.order_by_id Sql.asc db2.
Proof.
  intros Hp Hnd. apply (sorted_unique Sql.asc).
  - apply asc_antisym.
  - apply order_by_id_sorted; [apply asc_total|apply asc_trans].
  - apply order_by_id_sorted; [apply asc_total|apply asc_trans].
  - by rewrite !order_by_id_perm.
  - by rewrite order_by_id_perm.
Qed.

(** [calc_state] reads the rows in ascending order of id, so the order in
    which a table of distinct ids holds its rows does not matter: two such
    tables with the same rows give the same result, in both files. *)
Theorem calc_state_any_order db1 db2 :
  db1 ≡ₚ db2 -> NoDup (map rowid db1) ->
  App.calc_state db1 = App.calc_state db2 /\
  SystemAccountant.calc_state db1 = SystemAccountant.calc_state db2.
Proof.
  intros Hp Hnd. unfold App.calc_state, SystemAccountant.calc_state.
  by rewrite (order_asc_perm db1 db2).
Qed.

Lemma calc_state_any_order_witness :
  App.calc_state scenario_c = App.calc_state (reverse scenario_c) /\
  SystemAccountant.calc_state scenario_c
  = SystemAccountant.calc_state (reverse scenario_c).
Proof.
  apply (calc_state_any_order scenario_c (reverse scenario_c)).
  - symmetry. apply reverse_Permutation.
  - by apply (bool_decide_unpack _).
Defined.

(** ** The rows of a history *)

Lemma between_empty a b db : b < a -> Sql.between a b db = [].
Proof.
  intros Hba. unfold Sql.between.
  induction db as [|r db IH]; [done|].
  rewrite filter_cons. destruct (decide _); [lia|done].
Qed.

(** system_accountant.py: the history of a range (a, b) holds the rows of
    the table whose id lies between a and b, each once, and shows the
    range as it was given; with b below a it holds no row.  Without a
    range it holds every row of the table. *)
Theorem sa_history_rows db a b :
  Forall typed db -> Sql.int64 a -> Sql.int64 b ->
  (exists p, SystemAccountant.history (Some a) (Some b) db = Ok p /\
             scope p = Some (a, b) /\
             rows p ≡ₚ filter (fun r => a <= rowid r <= b) db /\
             (b < a -> rows p = [])) /\
  (exists p, SystemAccountant.history None None db = Ok p /\
             scope p = None /\ rows p ≡ₚ db).
Proof.
  intros Hty Ha Hb. unfold SystemAccountant.history.
  rewrite sa_calc_state_typed by done. simpl.
  rewrite !bind_int_typed by done. simpl.
  split; eexists; (split; [reflexivity|]); simpl; (split; [done|]).
  - split; [apply order_by_id_perm|].
    intros Hba. by rewrite between_empty.
  - apply order_by_id_perm.
Qed.

Lemma sa_history_rows_witness :
  (exists p, SystemAccountant.history (Some 2) (Some 3) scenario_c = Ok p /\
             scope p = Some (2, 3) /\
             rows p ≡ₚ filter (fun r => 2 <= rowid r <= 3) scenario_c /\
             (3 < 2 -> rows p = [])) /\
  (exists p, SystemAccountant.history None None scenario_c = Ok p /\
             scope p = None /\ rows p ≡ₚ scenario_c).
Proof.
  apply (sa_history_rows scenario_c 2 3).
  - repeat constructor; vm_compute; congruence.
  - vm_compute. split; congruence.
  - vm_compute. split; congruence.
Defined.

(** app.py: the history of a range (a, b) holds the rows of the table
    whose id lies between the smaller and the larger of a and b, each
    once, and shows the range with its bounds in that order.  Without a
    range it holds every row of the table. *)
Theorem app_history_rows db a b :
  Forall typed db -> Sql.int64 a -> Sql.int64 b ->
  (exists p, App.history (Some a) (Some b) db = Ok p /\
             scope p = Some (Z.min a b, Z.max a b) /\
             rows p ≡ₚ filter (fun r => Z.min a b <= rowid r <= Z.max a b) db) /\
  (exists p, App.history None None db = Ok p /\
             scope p = None /\ rows p ≡ₚ db).
Proof.
  intros Hty Ha Hb. unfold App.history.
  rewrite app_calc_state_typed by done. simpl. split.
  - destruct (Z.ltb_spec b a); simpl;
      rewrite !bind_int_typed by done; simpl;
      eexists; (split; [reflexivity|]); simpl.
    + rewrite Z.min_r, Z.max_l by lia. split; [done|apply order_by_id_perm].
    + rewrite Z.min_l, Z.max_r by lia. split; [done|apply order_by_id_perm].
  - eexists. split; [reflexivity|]. simpl. split; [done|apply order_by_id_perm].
Qed.

Lemma app_history_rows_witness :
  (exists p, App.history (Some 3) (Some 2) scenario_c = Ok p /\
             scope p = Some (Z.min 3 2, Z.max 3 2) /\
             rows p ≡ₚ filter (fun r => Z.min 3 2 <= rowid r <= Z.max 3 2)
                         scenario_c) /\
  (exists p, App.history None None scenario_c = Ok p /\
             scope p = None /\ rows p ≡ₚ scenario_c).
Proof.
  apply (app_history_rows scenario_c 3 2).
  - repeat constructor; vm_compute; congruence.
  - vm_compute. split; congruence.
  - vm_compute. split; congruence.
Defined.

Lemma strongly_sorted_reverse {A} (R : A -> A -> Prop) l :
  StronglySorted R l -> StronglySorted (flip R) (reverse l).
Proof.
  induction 1 as [|x l Hl IH Hx]; [constructor|].
  rewrite reverse_cons. apply StronglySorted_app_2; [|exact IH|].
  2: { constructor; constructor. }
  intros y x' Hy ->%list_elem_of_singleton. unfold flip.
  rewrite elem_of_reverse in Hy. by apply (proj1 (Forall_forall _ _) Hx).
Qed.

Lemma order_desc_reverse l :
  NoDup (map rowid l) ->
  Sql.order_by_id Sql.desc l = reverse (Sql.order_by_id Sql.asc l).
Proof.
  intros Hnd. apply (sorted_unique Sql.desc).
  - apply desc_antisym.
  - apply order_by_id_sorted; [apply desc_total|apply desc_trans].
  - eapply strongly_sorted_impl;
      [|apply strongly_sorted_reverse,
         (order_by_id_sorted Sql.asc); [apply asc_total|apply asc_trans]].
    intros x y. unfold flip, Sql.precedes. by rewrite desc_asc.
  - by rewrite reverse_Permutation, !order_by_id_perm.
  - by rewrite order_by_id_perm.
Qed.

Lemma nodup_ids_filter (P : row -> Prop) `{forall r, Decision (P r)} l :
  NoDup (map rowid l) -> NoDup (map rowid (filter P l)).
Proof.
  induction l as [|r l IH]; simpl; [done|].
  intros [Hr Hl]%NoDup_cons. rewrite filter_cons.
  destruct (decide (P r)); simpl; [|by apply IH].
  apply NoDup_cons. split; [|by apply IH].
  intros (y & Hy & Hin)%list_elem_of_fmap. apply Hr.
  apply list_elem_of_filter in Hin as [_ Hin].
  rewrite Hy. by apply (list_elem_of_fmap_2 rowid).
Qed.

(** Over a table of distinct ids and a range given in order, the history
    of app.py is the history of system_accountant.py with the rows in
    reverse and the cash rounded to two decimals: the same range shown,
    the same stock.  The same holds without a range. *)
Theorem app_history_is_sa_reversed db a b :
  Forall typed db -> NoDup (map rowid db) ->
  Sql.int64 a -> Sql.int64 b -> a <= b ->
  (exists p q,
     App.history (Some a) (Some b) db = Ok p /\
     SystemAccountant.history (Some a) (Some b) db = Ok q /\
     rows p = reverse (rows q) /\ scope p = scope q /\
     stock p = stock q /\ cash p = Py.round2 (cash q)) /\
  (exists p q,
     App.history None None db = Ok p /\
     SystemAccountant.history None None db = Ok q /\
     rows p = reverse (rows q) /\ scope p = scope q /\
     stock p = stock q /\ cash p = Py.round2 (cash q)).
Proof.
  intros Hty Hnd Ha Hb Hab. unfold App.history, SystemAccountant.history.
  rewrite app_calc_state_typed, sa_calc_state_typed by done. simpl.
  destruct (Z.ltb_spec b a); [lia|]. simpl.
  rewrite !bind_int_typed by done. simpl.
  split; eexists _, _; (split; [reflexivity|]); (split; [reflexivity|]); simpl;
    (split; [|done]).
  - apply order_desc_reverse. by apply nodup_ids_filter.
  - by apply order_desc_reverse.
Qed.

Lemma app_history_is_sa_reversed_witness :
  (exists p q,
     App.history (Some 1) (Some 2) scenario_c = Ok p /\
     SystemAccountant.history (Some 1) (Some 2) scenario_c = Ok q /\
     rows p = reverse (rows q) /\ scope p = scope q /\
     stock p = stock q /\ cash p = Py.round2 (cash q)) /\
  (exists p q,
     App.history None None scenario_c = Ok p /\
     SystemAccountant.history None None scenario_c = Ok q /\
     rows p = reverse (rows q) /\ scope p = scope q /\
     stock p = stock q /\ cash p = Py.round2 (cash q)).
Proof.
  apply (app_history_is_sa_reversed scenario_c 1 2).
  - repeat constructor; vm_compute; congruence.
  - by apply (bool_decide_unpack _).
  - vm_compute. split; congruence.
  - vm_compute. split; congruence.
  - lia.
Defined.

(** ** The snapshot after one more row *)

Lemma place_asc_snoc x l r :
  rowid x <= rowid r ->
  Sql.place Sql.asc x (l ++ [r]) = Sql.place Sql.asc x l ++ [r].
Proof.
  intros Hx. induction l as [|h l IH]; simpl.
  - unfold Sql.asc. by rewrite (proj2 (Z.leb_le _ _) Hx).
  - destruct (Sql.asc (rowid x) (rowid h)); [done|]. by rewrite IH.
Qed.

Lemma order_asc_snoc db r :
  Forall (fun x => rowid x <= rowid r) db ->
  Sql.order_by_id Sql.asc (db ++ [r]) = Sql.order_by_id Sql.asc db ++ [r].
Proof.
  induction 1 as [|x db Hx _ IH]; simpl; [done|].
  rewrite IH. by apply place_asc_snoc.
Qed.

Lemma elide_default (stock : stock_map) name :
  default 0 (Spec.elide stock !! name) = default 0 (stock !! name).
Proof. rewrite elide_lookup. by destruct (decide _). Qed.

(** A row written under the next id changes the snapshot by itself alone.
    With [acc] the cash accumulated over the table before, which is the
    cash system_accountant.py returns and the one app.py returns rounded:
    after the row, system_accountant.py returns [acc] with the payment of
    the row, app.py returns that rounded, and in both files every
    product's quantity moves by what the row moves (a product absent from
    the stock counting as zero). *)
Theorem snapshot_after_insert db r :
  Forall typed db -> typed r -> rowid r = Sql.last_id db + 1 ->
  exists stock stock' acc,
    acc = Spec.accumulated (Sql.order_by_id Sql.asc db) /\
    SystemAccountant.calc_state db = Ok (stock, acc) /\
    SystemAccountant.calc_state (db ++ [r]) = Ok (stock', Spec.pay acc r) /\
    App.calc_state db = Ok (stock, Py.round2 acc) /\
    App.calc_state (db ++ [r]) = Ok (stock', Py.round2 (Spec.pay acc r)) /\
    forall name,
      default 0 (stock' !! name)
      = default 0 (stock !! name) + Spec.moved name r.
Proof.
  intros Hdb Hr Hid.
  assert (Hty : Forall typed (db ++ [r])).
  { apply Forall_app. split; [done|]. by constructor. }
  assert (Hord : Sql.order_by_id Sql.asc (db ++ [r])
                 = Sql.order_by_id Sql.asc db ++ [r]).
  { apply order_asc_snoc. rewrite Hid.
    eapply Forall_impl; [apply last_id_bound|]. simpl. lia. }
  eexists _, _, _. split; [reflexivity|].
  split; [by apply sa_calc_state_typed|].
  split; [rewrite sa_calc_state_typed by done;
          unfold Spec.accumulated; by rewrite Hord, !fold_left_app|].
  split; [by apply app_calc_state_typed|].
  split; [rewrite app_calc_state_typed by done;
          unfold Spec.accumulated; by rewrite Hord, !fold_left_app|].
  intros name. rewrite !elide_default, ?Hord, ?fold_left_app. simpl.
  apply tallied_stock.
Qed.

Lemma snapshot_after_insert_witness :
  let r := {| rowid := 3; ts := "2024-01-01T10:10:00"; kind := "balance";
              product := None; unit_price := None; qty := None;
              comment := Some "fee"; value := Some (-3.5)%float |} in
  exists stock stock' acc,
    acc = Spec.accumulated (Sql.order_by_id Sql.asc scenario_b) /\
    SystemAccountant.calc_state scenario_b = Ok (stock, acc) /\
    SystemAccountant.calc_state (scenario_b ++ [r])
    = Ok (stock', Spec.pay acc r) /\
    App.calc_state scenario_b = Ok (stock, Py.round2 acc) /\
    App.calc_state (scenario_b ++ [r])
    = Ok (stock', Py.round2 (Spec.pay acc r)) /\
    forall name,
      default 0 (stock' !! name)
      = default 0 (stock !! name) + Spec.moved name r.
Proof.
  apply (snapshot_after_insert scenario_b
           {| rowid := 3; ts := "2024-01-01T10:10:00"; kind := "balance";
              product := None; unit_price := None; qty := None;
              comment := Some "fee"; value := Some (-3.5)%float |}).
  - repeat constructor; vm_compute; congruence.
  - vm_compute. split; congruence.
  - reflexivity.
Defined.

(** ** The forms of app.py *)

Lemma float_of_str_raises s e : Py.float_of_str s = Raise e -> e = ValueError.
Proof.
  unfold Py.float_of_str, Py.numeral. repeat case_match; congruence.
Qed.

Lemma int_raises s e : Py.int s = Raise e -> e = ValueError.
Proof. unfold Py.int. repeat case_match; congruence. Qed.

(** app.py: a buy or a sell with a product, a price that parses and is
    not below zero, and a quantity that parses, is positive and fits 64
    bits, is written at the end of the table under the next id, with the
    product stripped of the white space around it, and answered with the
    message of success and the redirect. *)
Theorem app_trade_accepted form now db ps qs price q :
  get form "unit_price" = Some ps -> Py.float_of_str ps = Ok price ->
  get form "qty" = Some qs -> Py.int qs = Ok q ->
  Py.strip (get_or_empty form "product") <> "" ->
  0 < q < 2 ^ 63 -> (price <? 0)%float = false ->
  App.buy form now db
  = Ok {| table := db ++
            [{| rowid := Sql.last_id db + 1; ts := now; kind := "buy";
                product := Some (Py.strip (get_or_empty form "product"));
                unit_price := Sql.bind_real price; qty := Some q;
                comment := None; value := None |}];
          flashed := [("Zakup zapisany.", "ok")]; location := "index" |} /\
  App.sell form now db
  = Ok {| table := db ++
            [{| rowid := Sql.last_id db + 1; ts := now; kind := "sell";
                product := Some (Py.strip (get_or_empty form "product"));
                unit_price := Sql.bind_real price; qty := Some q;
                comment := None; value := None |}];
          flashed := [("Sprzedaż zapisana.", "ok")]; location := "index" |}.
Proof.
  intros Ep Hp Eq Hq Hname Hrange Hprice.
  unfold App.buy, App.sell, App.trade.
  rewrite Ep, Eq, (missing_parsed_float _ _ Hp), (missing_parsed_int _ _ Hq).
  rewrite (proj2 (String.eqb_neq _ _) Hname). simpl.
  rewrite Hp, Hq. simpl. rewrite Hprice, (proj2 (Z.leb_gt _ _)) by lia. simpl.
  unfold Sql.insert. simpl. rewrite bind_int_typed by (unfold Sql.int64; lia).
  done.
Qed.

Lemma app_trade_accepted_witness :
  let form : gmap string string :=
    {[ "product" := "  Widget "; "unit_price" := "10.0"; "qty" := "5" ]} in
  App.buy form "2024-01-02T08:00:00" scenario_c
  = Ok {| table := scenario_c ++
            [{| rowid := Sql.last_id scenario_c + 1;
                ts := "2024-01-02T08:00:00"; kind := "buy";
                product := Some (Py.strip (get_or_empty form "product"));
                unit_price := Sql.bind_real 10; qty := Some 5;
                comment := None; value := None |}];
          flashed := [("Zakup zapisany.", "ok")]; location := "index" |} /\
  App.sell form "2024-01-02T08:00:00" scenario_c
  = Ok {| table := scenario_c ++
            [{| rowid := Sql.last_id scenario_c + 1;
                ts := "2024-01-02T08:00:00"; kind := "sell";
                product := Some (Py.strip (get_or_empty form "product"));
                unit_price := Sql.bind_real 10; qty := Some 5;
                comment := None; value := None |}];
          flashed := [("Sprzedaż zapisana.", "ok")]; location := "index" |}.
Proof.
  apply (app_trade_accepted
           {[ "product" := "  Widget "; "unit_price" := "10.0"; "qty" := "5" ]}
           "2024-01-02T08:00:00" scenario_c "10.0" "5" 10%float 5);
    try reflexivity; try (vm_compute; congruence).
  split; reflexivity.
Defined.

Lemma bind_int_overflow q : 2 ^ 63 <= q -> Sql.bind_int q = Raise OverflowError.
Proof.
  intros H. unfold Sql.bind_int. rewrite decide_False; [done|].
  unfold Sql.int64. lia.
Qed.

(** app.py: a buy or a sell that passes every check with a quantity of
    2 ^ 63 or more ends in the OverflowError of the INSERT, which nothing
    catches: no message, no redirect, and the table as it was. *)
Theorem app_quantity_overflow form now db ps qs price q :
  get form "unit_price" = Some ps -> Py.float_of_str ps = Ok price ->
  get form "qty" = Some qs -> Py.int qs = Ok q ->
  Py.strip (get_or_empty form "product") <> "" ->
  2 ^ 63 <= q -> (price <? 0)%float = false ->
  App.buy form now db = Raise OverflowError /\
  App.sell form now db = Raise OverflowError /\
  table_after db (App.buy form now db) = db /\
  table_after db (App.sell form now db) = db.
Proof.
  intros Ep Hp Eq Hq Hname Hrange Hprice.
  assert (Hpos : 0 < 2 ^ 63) by done.
  assert (App.buy form now db = Raise OverflowError /\
          App.sell form now db = Raise OverflowError) as [Hb Hs].
  { unfold App.buy, App.sell, App.trade.
    rewrite Ep, Eq, (missing_parsed_float _ _ Hp), (missing_parsed_int _ _ Hq).
    rewrite (proj2 (String.eqb_neq _ _) Hname). simpl.
    rewrite Hp, Hq. simpl.
    rewrite Hprice, (proj2 (Z.leb_gt _ _)) by lia. simpl.
    unfold Sql.insert. simpl. by rewrite !bind_int_overflow. }
  by rewrite Hb, Hs.
Qed.

Lemma app_quantity_overflow_witness :
  let form : gmap string string :=
    {[ "product" := "Widget"; "unit_price" := "1";
       "qty" := "9223372036854775808" ]} in
  App.buy form "2024-01-02T08:00:00" scenario_c = Raise OverflowError /\
  App.sell form "2024-01-02T08:00:00" scenario_c = Raise OverflowError /\
  table_after scenario_c (App.buy form "2024-01-02T08:00:00" scenario_c)
  = scenario_c /\
  table_after scenario_c (App.sell form "2024-01-02T08:00:00" scenario_c)
  = scenario_c.
Proof.
  apply (app_quantity_overflow
           {[ "product" := "Widget"; "unit_price" := "1";
              "qty" := "9223372036854775808" ]}
           "2024-01-02T08:00:00" scenario_c "1" "9223372036854775808"
           1%float 9223372036854775808);
    try reflexivity; vm_compute; congruence.
Defined.

(** app.py: a buy or a sell from which the product, the price or the
    quantity is missing, or empty (for the product, blank), is turned down
    with the message that asks for the three, and nothing is written;
    neither number is parsed. *)
Theorem app_missing_field mk done form now db :
  Py.strip (get_or_empty form "product") = "" \/
  missing (get form "unit_price") = true \/
  missing (get form "qty") = true ->
  App.trade mk done form now db
  = Ok {| table := db;
          flashed := [("Uzupełnij: nazwa, cena, liczba sztuk.", "error")];
          location := "index" |}.
Proof.
  intros H. unfold App.trade.
  destruct H as [H|[H|H]]; rewrite H; simpl; rewrite ?orb_true_r; done.
Qed.

Lemma app_missing_field_witness :
  App.trade Buy "Zakup zapisany." {[ "product" := "   "; "qty" := "abc" ]}
    "2024-01-02T08:00:00" scenario_c
  = Ok {| table := scenario_c;
          flashed := [("Uzupełnij: nazwa, cena, liczba sztuk.", "error")];
          location := "index" |}.
Proof.
  apply (app_missing_field Buy "Zakup zapisany."
           {[ "product" := "   "; "qty" := "abc" ]}).
  left. reflexivity.
Defined.

(** app.py: a balance adjustment is written exactly when its value is
    there and parses as a float: it goes to the end of the table under the
    next id, with the comment stripped (empty when there is none) and the
    message of success; otherwise the request is turned down with a
    message and nothing is written. *)
Theorem app_balance_cases form now db :
  match Py.float_of_str (default "" (get form "value")) with
  | Ok val =>
      App.balance form now db
      = Ok {| table := db ++
                [{| rowid := Sql.last_id db + 1; ts := now; kind := "balance";
                    product := None; unit_price := None; qty := None;
                    comment := Some (Py.strip (get_or_empty form "comment"));
                    value := Sql.bind_real val |}];
              flashed := [("Zmiana salda zapisana.", "ok")];
              location := "index" |}
  | Raise _ =>
      rejected (App.balance form now db) /\
      table_after db (App.balance form now db) = db
  end.
Proof.
  unfold App.balance.
  destruct (get form "value") as [s|] eqn:Es; simpl.
  - destruct (String.eqb_spec s "") as [->|Hs]; simpl.
    + split; [by eexists|done].
    + destruct (Py.float_of_str s) as [val|e] eqn:Ep; simpl; [done|].
      apply float_of_str_raises in Ep as ->. split; [by eexists|done].
  - split; [by eexists|done].
Qed.

(** ** The form of system_accountant.py *)

Lemma sa_trade_cases mk pre done form now db price q :
  SystemAccountant.float_or_0 (get_or form (pre ++ "_price") "0") = Ok price ->
  SystemAccountant.int_or_0 (get_or form (pre ++ "_qty") "0") = Ok q ->
  SystemAccountant.trade mk pre done form now db
  = if decide (Py.strip (get_or form (pre ++ "_name") "") = "" \/ q <= 0)
    then Ok (db, [("Podaj nazwę produktu i dodatnią liczbę sztuk.", "error")])
    else db' ← Sql.insert now
                 (mk (Py.strip (get_or form (pre ++ "_name") "")) price q) db;
         Ok (db', [(done, "ok")]).
Proof.
  intros Hp Hq. unfold SystemAccountant.trade. rewrite Hp, Hq. simpl.
  destruct (String.eqb_spec (Py.strip (get_or form (pre ++ "_name") "")) "")
    as [E|E]; simpl.
  { rewrite decide_True; [done|by left]. }
  destruct (Z.leb_spec q 0); simpl.
  - rewrite decide_True; [done|by right].
  - rewrite decide_False; [done|]. intros [?|?]; [done|lia].
Qed.

(** system_accountant.py, kind buy, price and quantity parsed: the request
    is turned down, nothing written, exactly when the name is blank or the
    quantity is not positive, whatever the price.  Otherwise a quantity
    that fits 64 bits is written at the end of the table under the next
    id, and a larger one ends in an OverflowError that nothing catches. *)
Theorem sa_buy_cases form now db price q :
  get form "form_name" = Some "buy" ->
  SystemAccountant.float_or_0 (get_or form "buy_price" "0") = Ok price ->
  SystemAccountant.int_or_0 (get_or form "buy_qty" "0") = Ok q ->
  let name := Py.strip (get_or form "buy_name" "") in
  let o := SystemAccountant.add_event form now db in
  (rejected o /\ table_after db o = db <-> name = "" \/ q <= 0) /\
  (name <> "" -> 0 < q < 2 ^ 63 ->
   o = Ok {| table := db ++
               [{| rowid := Sql.last_id db + 1; ts := now; kind := "buy";
                   product := Some name; unit_price := Sql.bind_real price;
                   qty := Some q; comment := None; value := None |}];
             flashed := [("Zakup zapisany.", "ok")];
             location := "index" |}) /\
  (name <> "" -> 2 ^ 63 <= q -> o = Raise OverflowError).
Proof.
  intros Hk Hp Hq name o. subst o. unfold SystemAccountant.add_event.
  rewrite Hk. simpl.
  rewrite (sa_trade_cases Buy "buy" _ form now db price q Hp Hq).
  change (Py.strip (get_or form ("buy" ++ "_name") "")) with name.
  assert (Hpos : 0 < 2 ^ 63) by done.
  destruct (decide (name = "" \/ q <= 0)) as [Hbad|Hok]; simpl.
  - split; [|split; intros; exfalso; destruct Hbad; [done|lia|done|lia]].
    split; [done|]. intros _. split; [by eexists|done].
  - split; [|split].
    + split; [|done]. intros [Hrej _]. exfalso.
      destruct (Sql.insert _ _ _); simpl in Hrej; [|done].
      by destruct Hrej as (msg & [=] & _).
    + intros _ Hrange. unfold Sql.insert. simpl.
      by rewrite bind_int_typed by (unfold Sql.int64; lia).
    + intros _ Hbig. unfold Sql.insert. simpl.
      by rewrite bind_int_overflow.
Qed.

Lemma sa_buy_cases_witness :
  let form : gmap string string :=
    {[ "form_name" := "buy"; "buy_name" := " Widget";
       "buy_price" := "-1"; "buy_qty" := "5" ]} in
  let now := "2024-01-02T08:00:00" in
  let db := scenario_c in
  let name := Py.strip (get_or form "buy_name" "") in
  let o := SystemAccountant.add_event form now db in
  (rejected o /\ table_after db o = db <-> name = "" \/ 5 <= 0) /\
  (name <> "" -> 0 < 5 < 2 ^ 63 ->
   o = Ok {| table := db ++
               [{| rowid := Sql.last_id db + 1; ts := now; kind := "buy";
                   product := Some name; unit_price := Sql.bind_real (-1);
                   qty := Some 5; comment := None; value := None |}];
             flashed := [("Zakup zapisany.", "ok")];
             location := "index" |}) /\
  (name <> "" -> 2 ^ 63 <= 5 -> o = Raise OverflowError).
Proof.
  apply (sa_buy_cases
           {[ "form_name" := "buy"; "buy_name" := " Widget";
              "buy_price" := "-1"; "buy_qty" := "5" ]}
           "2024-01-02T08:00:00" scenario_c (-1)%float 5); reflexivity.
Defined.

(** system_accountant.py, kind sell: as for a buy. *)
Theorem sa_sell_cases form now db price q :
  get form "form_name" = Some "sell" ->
  SystemAccountant.float_or_0 (get_or form "sell_price" "0") = Ok price ->
  SystemAccountant.int_or_0 (get_or form "sell_qty" "0") = Ok q ->
  let name := Py.strip (get_or form "sell_name" "") in
  let o := SystemAccountant.add_event form now db in
  (rejected o /\ table_after db o = db <-> name = "" \/ q <= 0) /\
  (name <> "" -> 0 < q < 2 ^ 63 ->
   o = Ok {| table := db ++
               [{| rowid := Sql.last_id db + 1; ts := now; kind := "sell";
                   product := Some name; unit_price := Sql.bind_real price;
                   qty := Some q; comment := None; value := None |}];
             flashed := [("Sprzedaż zapisana.", "ok")];
             location := "index" |}) /\
  (name <> "" -> 2 ^ 63 <= q -> o = Raise OverflowError).
Proof.
  intros Hk Hp Hq name o. subst o. unfold SystemAccountant.add_event.
  rewrite Hk. simpl.
  rewrite (sa_trade_cases Sell "sell" _ form now db price q Hp Hq).
  change (Py.strip (get_or form ("sell" ++ "_name") "")) with name.
  assert (Hpos : 0 < 2 ^ 63) by done.
  destruct (decide (name = "" \/ q <= 0)) as [Hbad|Hok]; simpl.
  - split; [|split; intros; exfalso; destruct Hbad; [done|lia|done|lia]].
    split; [done|]. intros _. split; [by eexists|done].
  - split; [|split].
    + split; [|done]. intros [Hrej _]. exfalso.
      destruct (Sql.insert _ _ _); simpl in Hrej; [|done].
      by destruct Hrej as (msg & [=] & _).
    + intros _ Hrange. unfold Sql.insert. simpl.
      by rewrite bind_int_typed by (unfold Sql.int64; lia).
    + intros _ Hbig. unfold Sql.insert. simpl.
      by rewrite bind_int_overflow.
Qed.

Lemma sa_sell_cases_witness :
  let form : gmap string string :=
    {[ "form_name" := "sell"; "sell_name" := "Widget";
       "sell_price" := "12"; "sell_qty" := "0" ]} in
  let now := "2024-01-02T08:00:00" in
  let db := scenario_c in
  let name := Py.strip (get_or form "sell_name" "") in
  let o := SystemAccountant.add_event form now db in
  (rejected o /\ table_after db o = db <-> name = "" \/ 0 <= 0) /\
  (name <> "" -> 0 < 0 < 2 ^ 63 ->
   o = Ok {| table := db ++
               [{| rowid := Sql.last_id db + 1; ts := now; kind := "sell";
                   product := Some name; unit_price := Sql.bind_real 12;
                   qty := Some 0; comment := None; value := None |}];
             flashed := [("Sprzedaż zapisana.", "ok")];
             location := "index" |}) /\
  (name <> "" -> 2 ^ 63 <= 0 -> o = Raise OverflowError).
Proof.
  apply (sa_sell_cases
           {[ "form_name" := "sell"; "sell_name" := "Widget";
              "sell_price" := "12"; "sell_qty" := "0" ]}
           "2024-01-02T08:00:00" scenario_c 12%float 0); reflexivity.
Defined.

Lemma float_or_0_missing form k :
  get form k = None \/ get form k = Some "" ->
  SystemAccountant.float_or_0 (get_or form k "0") = Ok 0%float.
Proof. unfold get, get_or. by intros [->| ->]. Qed.

Lemma int_or_0_missing form k :
  get form k = None \/ get form k = Some "" ->
  SystemAccountant.int_or_0 (get_or form k "0") = Ok 0.
Proof. unfold get, get_or. by intros [->| ->]. Qed.

(** system_accountant.py, kind buy: a quantity that is missing or empty
    counts as 0, so the request is turned down when the price parses; a
    price that is missing or empty counts as 0.0, so a named buy of a
    positive quantity is written at the unit price 0.0. *)
Theorem sa_buy_defaults form now db :
  get form "form_name" = Some "buy" ->
  let name := Py.strip (get_or form "buy_name" "") in
  let o := SystemAccountant.add_event form now db in
  (get form "buy_qty" = None \/ get form "buy_qty" = Some "" ->
   forall price,
     SystemAccountant.float_or_0 (get_or form "buy_price" "0") = Ok price ->
     rejected o /\ table_after db o = db) /\
  (get form "buy_price" = None \/ get form "buy_price" = Some "" ->
   forall q,
     SystemAccountant.int_or_0 (get_or form "buy_qty" "0") = Ok q ->
     name <> "" -> 0 < q < 2 ^ 63 ->
     o = Ok {| table := db ++
                 [{| rowid := Sql.last_id db + 1; ts := now; kind := "buy";
                     product := Some name; unit_price := Some 0%float;
                     qty := Some q; comment := None; value := None |}];
               flashed := [("Zakup zapisany.", "ok")];
               location := "index" |}).
Proof.
  intros Hk name o. subst o. unfold SystemAccountant.add_event.
  rewrite Hk. simpl. split.
  - intros Hq price Hp.
    rewrite (sa_trade_cases Buy "buy" _ form now db price 0 Hp
               (int_or_0_missing _ _ Hq)).
    rewrite decide_True by (right; lia). simpl. split; [by eexists|done].
  - intros Hp q Hq Hname Hrange.
    rewrite (sa_trade_cases Buy "buy" _ form now db 0%float q
               (float_or_0_missing _ _ Hp) Hq).
    change (Py.strip (get_or form ("buy" ++ "_name") "")) with name.
    rewrite decide_False by (intros [?|?]; [done|lia]).
    unfold Sql.insert. simpl.
    by rewrite bind_int_typed by (unfold Sql.int64; lia).
Qed.

Lemma sa_buy_defaults_witness :
  let form : gmap string string :=
    {[ "form_name" := "buy"; "buy_name" := "Widget"; "buy_qty" := "2" ]} in
  let now := "2024-01-02T08:00:00" in
  let db := scenario_c in
  let name := Py.strip (get_or form "buy_name" "") in
  let o := SystemAccountant.add_event form now db in
  (get form "buy_qty" = None \/ get form "buy_qty" = Some "" ->
   forall price,
     SystemAccountant.float_or_0 (get_or form "buy_price" "0") = Ok price ->
     rejected o /\ table_after db o = db) /\
  (get form "buy_price" = None \/ get form "buy_price" = Some "" ->
   forall q,
     SystemAccountant.int_or_0 (get_or form "buy_qty" "0") = Ok q ->
     name <> "" -> 0 < q < 2 ^ 63 ->
     o = Ok {| table := db ++
                 [{| rowid := Sql.last_id db + 1; ts := now; kind := "buy";
                     product := Some name; unit_price := Some 0%float;
                     qty := Some q; comment := None; value := None |}];
               flashed := [("Zakup zapisany.", "ok")];
               location := "index" |}).
Proof.
  apply (sa_buy_defaults
           {[ "form_name" := "buy"; "buy_name" := "Widget"; "buy_qty" := "2" ]}
           "2024-01-02T08:00:00" scenario_c).
  reflexivity.
Defined.

(** system_accountant.py, kind balance: the adjustment is written exactly
    when its value parses as a float, a value that is missing being read
    as 0; it goes to the end of the table under the next id with the
    comment stripped.  A value that does not parse, the empty one
    included, is turned down with a message and nothing is written. *)
Theorem sa_balance_cases form now db :
  get form "form_name" = Some "balance" ->
  let o := SystemAccountant.add_event form now db in
  match Py.float_of_str (get_or form "bal_value" "0") with
  | Ok val =>
      o = Ok {| table := db ++
                  [{| rowid := Sql.last_id db + 1; ts := now;
                      kind := "balance"; product := None;
                      unit_price := None; qty := None;
                      comment := Some (Py.strip (get_or form "bal_comment" ""));
                      value := Sql.bind_real val |}];
                flashed := [("Zmiana salda zapisana.", "ok")];
                location := "index" |}
  | Raise _ => rejected o /\ table_after db o = db
  end /\
  (get form "bal_value" = None ->
   map value (table_after db o) = map value db ++ [Some 0%float]) /\
  (get form "bal_value" = Some "" -> rejected o).
Proof.
  intros Hk o. subst o. unfold SystemAccountant.add_event.
  rewrite Hk. simpl. split; [|split].
  - destruct (Py.float_of_str _) as [val|e] eqn:Ep; simpl; [done|].
    apply float_of_str_raises in Ep as ->. simpl. split; [by eexists|done].
  - unfold get, get_or. intros ->. simpl. by rewrite map_app.
  - unfold get, get_or. intros ->. simpl. by eexists.
Qed.

Lemma sa_balance_cases_witness :
  let form : gmap string string :=
    {[ "form_name" := "balance"; "bal_comment" := " fee " ]} in
  let now := "2024-01-02T08:00:00" in
  let db := scenario_c in
  let o := SystemAccountant.add_event form now db in
  match Py.float_of_str (get_or form "bal_value" "0") with
  | Ok val =>
      o = Ok {| table := db ++
                  [{| rowid := Sql.last_id db + 1; ts := now;
                      kind := "balance"; product := None;
                      unit_price := None; qty := None;
                      comment := Some (Py.strip (get_or form "bal_comment" ""));
                      value := Sql.bind_real val |}];
                flashed := [("Zmiana salda zapisana.", "ok")];
                location := "index" |}
  | Raise _ => rejected o /\ table_after db o = db
  end /\
  (get form "bal_value" = None ->
   map value (table_after db o) = map value db ++ [Some 0%float]) /\
  (get form "bal_value" = Some "" -> rejected o).
Proof.
  apply (sa_balance_cases
           {[ "form_name" := "balance"; "bal_comment" := " fee " ]}
           "2024-01-02T08:00:00" scenario_c).
  reflexivity.
Defined.

(** ** A row written, then read back *)

Lemma between_new_row db r :
  rowid r = Sql.last_id db + 1 ->
  Sql.between (rowid r) (rowid r) (db ++ [r]) = [r].
Proof.
  intros Hid. unfold Sql.between. rewrite filter_app.
  replace (filter _ db) with (@nil row).
  - rewrite filter_cons, decide_True by lia. done.
  - symmetry. pose proof (last_id_bound db) as Hb.
    induction Hb as [|x l Hx _ IH]; [done|].
    rewrite filter_cons, decide_False by lia. apply IH.
Qed.

(** A row written under the next id is what the history of the range from
    that id to that id returns, alone, in both files. *)
Theorem history_finds_new_row db r :
  Forall typed db -> typed r -> rowid r = Sql.last_id db + 1 ->
  Sql.int64 (rowid r) ->
  exists p q,
    SystemAccountant.history (Some (rowid r)) (Some (rowid r)) (db ++ [r])
    = Ok p /\ rows p = [r] /\
    App.history (Some (rowid r)) (Some (rowid r)) (db ++ [r]) = Ok q /\
    rows q = [r].
Proof.
  intros Hdb Hr Hid Hi.
  assert (Hty : Forall typed (db ++ [r])).
  { apply Forall_app. split; [done|]. by constructor. }
  unfold SystemAccountant.history, App.history.
  rewrite Z.ltb_irrefl, !bind_int_typed by done. simpl.
  rewrite sa_calc_state_typed, app_calc_state_typed by done. simpl.
  rewrite (between_new_row db r Hid).
  by eexists _, _.
Qed.

Lemma history_finds_new_row_witness :
  let r := {| rowid := 4; ts := "2024-01-02T08:00:00"; kind := "buy";
              product := Some "Gadget"; unit_price := Some 2.5%float;
              qty := Some 4; comment := None; value := None |} in
  exists p q,
    SystemAccountant.history (Some (rowid r)) (Some (rowid r))
      (scenario_c ++ [r]) = Ok p /\ rows p = [r] /\
    App.history (Some (rowid r)) (Some (rowid r)) (scenario_c ++ [r]) = Ok q /\
    rows q = [r].
Proof.
  apply (history_finds_new_row scenario_c
           {| rowid := 4; ts := "2024-01-02T08:00:00"; kind := "buy";
              product := Some "Gadget"; unit_price := Some 2.5%float;
              qty := Some 4; comment := None; value := None |}).
  - repeat constructor; vm_compute; congruence.
  - vm_compute. split; congruence.
  - reflexivity.
  - vm_compute. split; congruence.
Defined.

Lemma app_trade_non_numeric_witness :
  let form : gmap string string :=
    {[ "product" := "Widget"; "unit_price" := "ten"; "qty" := "5" ]} in
  rejected (App.trade Buy "Zakup zapisany." form "2024-01-02T08:00:00"
              scenario_c) /\
  table_after scenario_c
    (App.trade Buy "Zakup zapisany." form "2024-01-02T08:00:00" scenario_c)
  = scenario_c.
Proof.
  apply (app_trade_non_numeric Buy "Zakup zapisany."
           {[ "product" := "Widget"; "unit_price" := "ten"; "qty" := "5" ]}).
  left. reflexivity.
Defined.

(** * The projection over rows as stored *)
















